(** * grafana-kafka-datasource: the backend plugin and its Kafka client

    A shallow embedding of [pkg/kafka_helper/client.go] and
    [pkg/plugin/plugin.go].

    - Go values are modelled as the code has them: [int32]/[int64] as [Z],
      [float64] as the kernel's binary64 floats, strings as [string],
      [map[string]float64] as a [gmap], slices as lists, structs as records.
    - Calls into the Kafka client library, the frame sender, the clock and the
      context are recorded in a trace of [Action]s; what the outside world
      answers (errors, poll events, the time, which [select] case fires, the
      order in which [range] walks a map) is an explicit input.
    - A Go [panic] is an outcome of its own, never a silent value.
    - Calls to the loggers and to [fmt.Printf]/[fmt.Fprintf] only write text
      and never influence control flow; they are left out of the trace. *)

From Stdlib Require Import ZArith Ascii String List Permutation.
From Stdlib Require Import Floats.PrimFloat.
From stdpp Require Import base option list strings gmap fin_maps.

Open Scope Z_scope.

(** ** Go base types *)

Definition float64 : Set := PrimFloat.float.

(** [time.Time], as an instant on a time line; [zeroTime] is [time.Time{}]. *)
Definition Time : Set := Z.
Definition zeroTime : Time := 0.

(** The double quote character, to write JSON texts. *)
Definition dq : string := String "034"%char EmptyString.

(** ** The Kafka client library (confluent-kafka-go), as far as the code uses it *)

Module kafka.

Definition ErrorCode : Set := Z.

(** [kafka.ErrTransport] and [kafka.ErrAllBrokersDown], with librdkafka's
    values ([RD_KAFKA_RESP_ERR__TRANSPORT], [..__ALL_BROKERS_DOWN]). *)
Definition ErrTransport : ErrorCode := -195.
Definition ErrAllBrokersDown : ErrorCode := -187.

(** [kafka.Error]: an error code and its text. *)
Record Error := { Code : ErrorCode; Str : string }.

(** [kafka.ConfigMap] with the four keys [ConsumerInitialize] sets. *)
Record ConfigMap := {
  bootstrap_servers : string;
  group_id : string;
  enable_auto_commit : string;
  auto_offset_reset : string
}.

(** [*kafka.Consumer]: the handle created from a configuration. *)
Record Consumer := { config : ConfigMap }.

(** [kafka.TopicPartition]; [TopicAssign] also sets [Metadata] to a fresh
    empty string and [Error] to nil, which are constant and left out. *)
Record TopicPartition := {
  Topic : string;
  Partition : Z;
  Offset : Z
}.

(** [*kafka.Message]: the payload and the time the broker or producer
    stamped on the message. *)
Record Message := {
  Value : string;
  Key : string;
  Timestamp : Time
}.

(** [kafka.Event]: a message, an error, or any other event type
    ([kafka.PartitionEOF], [kafka.Stats], ...), named by its tag. *)
Inductive Event :=
| EvMessage (m : Message)
| EvError (e : Error)
| EvOther (tag : string).

End kafka.

(** ** Go errors and panics *)

(** A value of Go's [error] interface: an error of the Kafka library, or any
    other error (of [encoding/json], of the frame sender), by its text. *)
Inductive error :=
| KafkaError (e : kafka.Error)
| OtherError (msg : string).

(** What a [panic] carries: the value the code panics with, or a run-time
    error (nil dereference, index out of range, failed type assertion). *)
Inductive PanicValue :=
| PanicError (e : error)
| RuntimeError (msg : string).

(** ** The grafana-plugin-sdk-go data model *)

Module data.

(** The typed vector behind a field: [[]time.Time], [[]float64], [[]int64]. *)
Inductive Vector :=
| VecTime (l : list Time)
| VecFloat64 (l : list float64)
| VecInt64 (l : list Z).

(** The [interface{}] values [Field.Set] receives in this code. *)
Inductive Value :=
| ValTime (t : Time)
| ValFloat64 (f : float64).

Record Field := { Name : string; vector : Vector }.

Record FrameMeta := { Channel : string }.

Record Frame := {
  FrameName : string;
  Fields : list Field;
  Meta : option FrameMeta
}.

(** [data.NewFrame(name)]: no fields, no metadata. *)
Definition NewFrame (name : string) : Frame :=
  {| FrameName := name; Fields := []; Meta := None |}.

(** [data.NewField(name, nil, values)]. *)
Definition NewField (name : string) (values : Vector) : Field :=
  {| Name := name; vector := values |}.

(** [frame.SetMeta(m)]. *)
Definition SetMeta (f : Frame) (m : FrameMeta) : Frame :=
  {| FrameName := FrameName f; Fields := Fields f; Meta := Some m |}.

(** [frame.Fields = append(frame.Fields, fs...)]. *)
Definition appendFields (f : Frame) (fs : list Field) : Frame :=
  {| FrameName := FrameName f; Fields := Fields f ++ fs; Meta := Meta f |}.

End data.

Module live.

(** [live.ScopeDatasource]. *)
Definition ScopeDatasource : string := "ds".

Record Channel := { Scope : string; Namespace : string; Path : string }.

(** [Channel.String()]: the scope, then the namespace and the path, each
    after a slash and each left out, with its slash, when it is empty. *)
Definition String (c : Channel) : string :=
  let ch := Scope c in
  let ch :=
    if String.eqb (Namespace c) EmptyString then ch
    else ch +:+ "/" +:+ Namespace c in
  let ch :=
    if String.eqb (Path c) EmptyString then ch
    else ch +:+ "/" +:+ Path c in
  ch.

End live.

(** ** Effects: a trace of calls, and panics *)

(** The calls the code makes on its collaborators. *)
Inductive Action :=
| ActNewConsumer (cfg : kafka.ConfigMap)
| ActAssign (partitions : list kafka.TopicPartition)
| ActPoll (timeoutMs : Z)
| ActGetMetadata (topic : string) (allTopics : bool) (timeoutMs : Z)
| ActSendFrame (f : data.Frame).

Inductive result (A : Type) :=
| Done (a : A)
| Panic (p : PanicValue).
Arguments Done {A} a.
Arguments Panic {A} p.

(** A computation: the calls made so far and how it ended. *)
Definition M (A : Type) : Type := list Action * result A.

Definition ret {A} (a : A) : M A := ([], Done a).

Definition panic {A} (p : PanicValue) : M A := ([], Panic p).

Definition call (a : Action) : M unit := ([a], Done tt).

Definition bind {A B} (m : M A) (k : A -> M B) : M B :=
  match m with
  | (t, Done a) => let '(t', r) := k a in (t ++ t', r)
  | (t, Panic p) => (t, Panic p)
  end.

Declare Scope go_scope.
Delimit Scope go_scope with go.
Notation "x <- c1 ;; c2" := (bind c1 (fun x => c2))
  (at level 100, c1 at next level, right associativity) : go_scope.
Notation "c1 ;; c2" := (bind c1 (fun _ => c2))
  (at level 100, right associativity) : go_scope.

Definition trace {A} (m : M A) : list Action := fst m.
Definition outcome {A} (m : M A) : result A := snd m.

(** ** pkg/kafka_helper/client.go *)

Module kafka_helper.

Record Options := {
  OptBootstrapServers : string;
  OptAutoOffsetReset : string;
  APIKey : string
}.

Record KafkaClient := {
  Consumer : option kafka.Consumer;
  BootstrapServers : string;
  AutoOffsetReset : string
}.

(** [type KafkaMessage map[string]float64]; the nil map and the empty map
    are both [∅]: the code only ranges over the map. *)
Abbreviation KafkaMessage := (gmap string float64).

Definition NewKafkaClient (options : Options) : KafkaClient :=
  {| Consumer := None;
     BootstrapServers := OptBootstrapServers options;
     AutoOffsetReset := OptAutoOffsetReset options |}.

Definition consumerConfig (client : KafkaClient) : kafka.ConfigMap :=
  {| kafka.bootstrap_servers := BootstrapServers client;
     kafka.group_id := "grafana-kafka-datasource";
     kafka.enable_auto_commit := "false";
     kafka.auto_offset_reset := AutoOffsetReset client |}.

(** [ConsumerInitialize]: [newConsumerErr] is the error [kafka.NewConsumer]
    answers, if any. The client with its consumer set is returned. *)
Definition ConsumerInitialize (newConsumerErr : option error)
    (client : KafkaClient) : M KafkaClient :=
  (call (ActNewConsumer (consumerConfig client));;
   match newConsumerErr with
   | Some err => panic (PanicError err)
   | None =>
       ret {| Consumer := Some {| kafka.config := consumerConfig client |};
              BootstrapServers := BootstrapServers client;
              AutoOffsetReset := AutoOffsetReset client |}
   end)%go.

(** [TopicAssign]: [assignErr] is the error [Consumer.Assign] answers. *)
Definition TopicAssign (assignErr : option error) (client : KafkaClient)
    (topic : string) (partition : Z) (offset : Z) : M unit :=
  let topic_partition :=
    {| kafka.Topic := topic;
       kafka.Partition := partition;
       kafka.Offset := offset |} in
  let partitions := [topic_partition] in
  match Consumer client with
  | None => panic (RuntimeError "nil pointer dereference")
  | Some _ =>
      (call (ActAssign partitions);;
       match assignErr with
       | Some err => panic (PanicError err)
       | None => ret tt
       end)%go
  end.

Section WithJSON.

(** [json.Unmarshal(payload, &message)] on a nil [KafkaMessage]: the map
    the call leaves in [message] and the error it returns. The decoder is
    the standard library's, so it is a parameter of the model. *)
Variable json_Unmarshal : string -> KafkaMessage * option error.

(** [ConsumerPull]: [ev] is what [Consumer.Poll(100)] answers, [None] for
    nil (the timeout elapsed). The error of [json.Unmarshal] is dropped,
    as in the source. *)
Definition ConsumerPull (client : KafkaClient) (ev : option kafka.Event)
    : M (KafkaMessage * option kafka.Event) :=
  let message : KafkaMessage := ∅ in
  match Consumer client with
  | None => panic (RuntimeError "nil pointer dereference")
  | Some _ =>
      (call (ActPoll 100);;
       match ev with
       | None => ret (message, ev)
       | Some (kafka.EvMessage e) =>
           let message := fst (json_Unmarshal (kafka.Value e)) in
           ret (message, ev)
       | Some (kafka.EvError e) =>
           if kafka.Code e =? kafka.ErrAllBrokersDown
           then panic (PanicError (KafkaError e))
           else ret (message, ev)
       | Some (kafka.EvOther _) => ret (message, ev)
       end)%go
  end.

End WithJSON.

(** [HealthCheck]: [metadataErr] is the error [Consumer.GetMetadata]
    answers. The receiver is a copy of the client, so the consumer created
    here is not kept. [err.(kafka.Error)] panics on any other error type. *)
Definition HealthCheck (newConsumerErr metadataErr : option error)
    (client : KafkaClient) : M (option error) :=
  (client <- ConsumerInitialize newConsumerErr client;;
   let topic := EmptyString in
   call (ActGetMetadata topic false 200);;
   match metadataErr with
   | Some err =>
       match err with
       | KafkaError e =>
           if kafka.Code e =? kafka.ErrTransport
           then ret (Some err)
           else ret None
       | OtherError _ =>
           panic (RuntimeError "interface conversion: error is not kafka.Error")
       end
   | None => ret None
   end)%go.

End kafka_helper.

(** ** The outside world of a stream *)

(** Go's [range] over a map visits every entry once, in an order the language
    leaves unspecified: the order is an input, some permutation of the
    entries. *)
Record MapOrder := {
  visit :> list (string * float64) -> list (string * float64);
  visit_perm : forall l, visit l ≡ₚ l
}.

(** What one pass through the timer case of [RunStream]'s [select] meets: the
    answer of the poll, the clock at [time.Now()], the order of the [range],
    and the error [sender.SendFrame] answers, if any. *)
Record Tick := {
  polled : option kafka.Event;
  now : Time;
  order : MapOrder;
  sendErr : option error
}.

(** Which case of the [select] fires. *)
Inductive Wake :=
| CtxDone
| TimerFired (tk : Tick).

(** The answers a stream gets: from [kafka.NewConsumer], from [Assign], and
    at each wake-up of the loop, as far as it has been observed. *)
Record StreamWorld := {
  newConsumerErr : option error;
  assignErr : option error;
  wakes : list Wake
}.

(** How far the loop got on the wake-ups observed: it returned nil, or it is
    back in the [select], waiting. *)
Inductive Stop :=
| ReturnedNil
| Waiting.

(** ** pkg/plugin/plugin.go *)

Module plugin.

Import kafka_helper.

Record KafkaDatasource := { client : KafkaClient }.

Record queryModel := {
  Topic : string;
  Partition : Z;
  WithStreaming : bool
}.

(** [var qm queryModel]: the zero value. *)
Definition zero_queryModel : queryModel :=
  {| Topic := EmptyString; Partition := 0; WithStreaming := false |}.

(** The SDK's request and response types, with the fields the code reads.
    The SDK dispatches a request to a data source instance only when the
    request carries the instance settings, so they are always there. *)
Record TimeRange := { From : Time; To : Time }.

Record DataQuery := {
  RefID : string;
  JSON : string;
  QTimeRange : TimeRange
}.

Record DataSourceInstanceSettings := { UID : string }.

Record PluginContext := { DSInstanceSettings : DataSourceInstanceSettings }.

Record DataResponse := {
  Frames : list data.Frame;
  Error : option error
}.

Record QueryDataRequest := {
  QPluginContext : PluginContext;
  Queries : list DataQuery
}.

Record QueryDataResponse := { Responses : gmap string DataResponse }.

Inductive HealthStatus := HealthStatusOk | HealthStatusError.

Record CheckHealthResult := { Status : HealthStatus; Message : string }.

Record CheckHealthRequest := { HPluginContext : PluginContext }.

Inductive SubscribeStreamStatus :=
| SubscribeStreamStatusOK
| SubscribeStreamStatusNotFound
| SubscribeStreamStatusPermissionDenied.

Record SubscribeStreamRequest := {
  SPluginContext : PluginContext;
  SPath : string;
  SData : string
}.

Record SubscribeStreamResponse := { SStatus : SubscribeStreamStatus }.

Record RunStreamRequest := {
  RPluginContext : PluginContext;
  RPath : string;
  RData : string
}.

Inductive PublishStreamStatus :=
| PublishStreamStatusOK
| PublishStreamStatusNotFound
| PublishStreamStatusPermissionDenied.

Record PublishStreamRequest := {
  PPluginContext : PluginContext;
  PPath : string;
  PData : string
}.

Record PublishStreamResponse := { PStatus : PublishStreamStatus }.

(** [field.Set(idx, val)] on the typed vector of a field: it panics when
    [idx] is out of range or [val] has another type than the elements. *)
Definition VectorSet (v : data.Vector) (idx : nat) (val : data.Value)
    : M data.Vector :=
  match v, val with
  | data.VecTime l, data.ValTime t =>
      if decide (idx < length l)%nat
      then ret (data.VecTime (<[idx := t]> l))
      else panic (RuntimeError "index out of range")
  | data.VecFloat64 l, data.ValFloat64 f =>
      if decide (idx < length l)%nat
      then ret (data.VecFloat64 (<[idx := f]> l))
      else panic (RuntimeError "index out of range")
  | _, _ => panic (RuntimeError "interface conversion")
  end.

(** [frame.Fields[i].Set(idx, val)]. *)
Definition FieldsSet (frame : data.Frame) (i idx : nat) (val : data.Value)
    : M data.Frame :=
  match data.Fields frame !! i with
  | None => panic (RuntimeError "index out of range")
  | Some fld =>
      (v <- VectorSet (data.vector fld) idx val;;
       ret {| data.FrameName := data.FrameName frame;
              data.Fields :=
                <[i := {| data.Name := data.Name fld; data.vector := v |}]>
                  (data.Fields frame);
              data.Meta := data.Meta frame |})%go
  end.

(** The body of [for key, value := range msg_data] in [RunStream], over the
    entries in the order the [range] visits them. *)
Fixpoint rangeFields (entries : list (string * float64))
    (frame : data.Frame) (cnt : nat) : M (data.Frame * nat) :=
  match entries with
  | [] => ret (frame, cnt)
  | (key, value) :: entries =>
      let frame :=
        data.appendFields frame
          [data.NewField key (data.VecFloat64 [0%float])] in
      (frame <- FieldsSet frame cnt 0 (data.ValFloat64 value);;
       rangeFields entries frame (S cnt))%go
  end.

(** The frame [RunStream] builds for one event: lines 199 to 212. *)
Definition streamFrame (tnow : Time) (entries : list (string * float64))
    : M data.Frame :=
  let frame := data.NewFrame "response" in
  let frame :=
    data.appendFields frame
      [data.NewField "time" (data.VecTime [zeroTime])] in
  (frame <- FieldsSet frame 0 0 (data.ValTime tnow);;
   let cnt := 1%nat in
   fc <- rangeFields entries frame cnt;;
   ret (fst fc))%go.

(** [PublishStream]. *)
Definition PublishStream (req : PublishStreamRequest) : PublishStreamResponse :=
  {| PStatus := PublishStreamStatusPermissionDenied |}.

(** [SubscribeStream]. *)
Definition SubscribeStream (req : SubscribeStreamRequest)
    : SubscribeStreamResponse :=
  let status := SubscribeStreamStatusPermissionDenied in
  let status :=
    if String.eqb (SPath req) "stream"
    then SubscribeStreamStatusOK
    else status in
  {| SStatus := status |}.

(** [CheckHealth]: the two errors are the answers of [kafka.NewConsumer]
    and of [Consumer.GetMetadata]. *)
Definition CheckHealth (newErr metadataErr : option error)
    (d : KafkaDatasource) (req : CheckHealthRequest) : M CheckHealthResult :=
  let status := HealthStatusOk in
  let message := "Data source is working..." in
  (err <- HealthCheck newErr metadataErr (client d);;
   match err with
   | Some _ =>
       ret {| Status := HealthStatusError;
              Message := "Cannot connect to the brokers." |}
   | None => ret {| Status := status; Message := message |}
   end)%go.

Section WithJSON.

(** [json.Unmarshal(query.JSON, &qm)] on a zero [queryModel], and
    [json.Unmarshal(payload, &message)] on a nil [KafkaMessage]: what the
    call leaves in its target and the error it returns. *)
Variable json_Unmarshal_queryModel : string -> queryModel * option error.
Variable json_Unmarshal_KafkaMessage : string -> KafkaMessage * option error.

(** [Query]. *)
Definition Query (pCtx : PluginContext) (query : DataQuery) : DataResponse :=
  let '(qm, err) := json_Unmarshal_queryModel (JSON query) in
  match err with
  | Some e => {| Frames := []; Error := Some e |}
  | None =>
      let frame := data.NewFrame "response" in
      let frame :=
        data.appendFields frame
          [data.NewField "time"
             (data.VecTime [From (QTimeRange query); To (QTimeRange query)]);
           data.NewField "values" (data.VecInt64 [0; 0])] in
      let frame :=
        if WithStreaming qm then
          let channel :=
            {| live.Scope := live.ScopeDatasource;
               live.Namespace := UID (DSInstanceSettings pCtx);
               live.Path := "stream" |} in
          data.SetMeta frame {| data.Channel := live.String channel |}
        else frame in
      {| Frames := [] ++ [frame]; Error := None |}
  end.

(** [QueryData]: the responses by [RefID], later queries overwriting
    earlier ones that carry the same [RefID]. *)
Definition QueryData (req : QueryDataRequest) : QueryDataResponse :=
  {| Responses :=
       fold_left
         (fun responses q =>
            let res := Query (QPluginContext req) q in
            <[RefID q := res]> responses)
         (Queries req) ∅ |}.

(** The [for { select { ... } }] of [RunStream], over the wake-ups
    observed. *)
Fixpoint streamLoop (c : KafkaClient) (ws : list Wake) : M Stop :=
  match ws with
  | [] => ret Waiting
  | CtxDone :: _ => ret ReturnedNil
  | TimerFired tk :: ws =>
      (pulled <- ConsumerPull json_Unmarshal_KafkaMessage c (polled tk);;
       let msg_data : KafkaMessage := fst pulled in
       match snd pulled with
       | None => streamLoop c ws
       | Some _ =>
           frame <- streamFrame (now tk) (order tk (map_to_list msg_data));;
           call (ActSendFrame frame);;
           match sendErr tk with
           | Some _ => streamLoop c ws
           | None => streamLoop c ws
           end
       end)%go
  end.

(** [RunStream]. The request is only logged; [qm] is never filled in. *)
Definition RunStream (w : StreamWorld) (ds : KafkaDatasource)
    (req : RunStreamRequest) : M Stop :=
  let qm := zero_queryModel in
  (c <- ConsumerInitialize (newConsumerErr w) (client ds);;
   let offset := -1 in
   let topic := Topic qm in
   let partition := Partition qm in
   TopicAssign (assignErr w) c topic partition offset;;
   streamLoop c (wakes w))%go.

End WithJSON.

(** [backend.DataSourceInstanceSettings] as [NewKafkaInstance] reads it:
    besides what the requests carry, the JSON of the settings and the
    decrypted secure values, by key. *)
Record InstanceSettings := {
  ISettings : DataSourceInstanceSettings;
  JSONData : string;
  DecryptedSecureJSONData : gmap string string
}.

Section WithSettingsJSON.

(** [json.Unmarshal(s.JSONData, settings)] on a zero [Options]: what the call
    leaves in [settings] and the error it returns. *)
Variable json_Unmarshal_Options : string -> Options * option error.

(** [getDatasourceSettings]: the Go pair of a pointer to [Options] and an
    error. *)
Definition getDatasourceSettings (s : InstanceSettings)
    : option Options * option error :=
  let '(settings, err) := json_Unmarshal_Options (JSONData s) in
  match err with
  | Some err => (None, Some err)
  | None =>
      let settings :=
        match DecryptedSecureJSONData s !! "apiKey" with
        | Some apiKey =>
            {| OptBootstrapServers := OptBootstrapServers settings;
               OptAutoOffsetReset := OptAutoOffsetReset settings;
               APIKey := apiKey |}
        | None => settings
        end in
      (Some settings, None)
  end.

(** [NewKafkaInstance]: the Go pair of an instance and an error;
    dereferencing [settings] panics on a nil pointer. *)
Definition NewKafkaInstance (s : InstanceSettings)
    : result (option KafkaDatasource * option error) :=
  let '(settings, err) := getDatasourceSettings s in
  match err with
  | Some err => Done (None, Some err)
  | None =>
      match settings with
      | None => Panic (RuntimeError "nil pointer dereference")
      | Some settings =>
          let client := NewKafkaClient settings in
          Done (Some {| client := client |}, None)
      end
  end.

End WithSettingsJSON.

End plugin.

(** ** Sample inputs *)

(** Texts, decoders and worlds the examples below are evaluated on. *)
Module Samples.

Import kafka_helper plugin.

(** The payload [{"a": 1.0, "b": 2.5}]. *)
Definition payload_ab : string :=
  "{" +:+ dq +:+ "a" +:+ dq +:+ ": 1.0, " +:+ dq +:+ "b" +:+ dq +:+ ": 2.5}".

(** A payload that is not JSON at all. *)
Definition payload_bad : string := "not json".

(** The query [{"topicName": "metrics", "partition": 3, "withStreaming": true}]. *)
Definition query_metrics : string :=
  "{" +:+ dq +:+ "topicName" +:+ dq +:+ ": " +:+ dq +:+ "metrics" +:+ dq +:+ ", "
      +:+ dq +:+ "partition" +:+ dq +:+ ": 3, "
      +:+ dq +:+ "withStreaming" +:+ dq +:+ ": true}".

(** A decoder that answers as [encoding/json] does on the texts above and
    on [{}]: a syntax error leaves the target untouched. Every other text
    is treated like [payload_bad]. *)
Definition json_KafkaMessage (payload : string) : KafkaMessage * option error :=
  if String.eqb payload payload_ab
  then (<["a" := 1%float]> (<["b" := 2.5%float]> ∅), None)
  else if String.eqb payload "{}"
  then (∅, None)
  else (∅, Some (OtherError "invalid character 'o' in literal null (expecting 'u')")).

Definition json_queryModel (text : string) : queryModel * option error :=
  if String.eqb text query_metrics
  then ({| Topic := "metrics"; Partition := 3; WithStreaming := true |}, None)
  else if String.eqb text "{}"
  then (zero_queryModel, None)
  else (zero_queryModel,
        Some (OtherError "invalid character 'o' in literal null (expecting 'u')")).

(** The two orders a [range] can take over a map of two entries. *)
Definition asListed : MapOrder :=
  {| visit := fun l => l; visit_perm := fun l => Permutation_refl l |}.

Definition reversed : MapOrder :=
  {| visit := @rev _;
     visit_perm := fun l => Permutation_sym (Permutation_rev l) |}.

Definition options : Options :=
  {| OptBootstrapServers := "localhost:9092";
     OptAutoOffsetReset := "latest";
     APIKey := EmptyString |}.

Definition ds : KafkaDatasource := {| client := NewKafkaClient options |}.

Definition pCtx : PluginContext :=
  {| DSInstanceSettings := {| UID := "kafka1" |} |}.

(** The client once [ConsumerInitialize] has run. *)
Definition ready : KafkaClient :=
  {| Consumer := Some {| kafka.config := consumerConfig (client ds) |};
     BootstrapServers := "localhost:9092";
     AutoOffsetReset := "latest" |}.

Definition message (payload : string) (stamp : Time) : kafka.Message :=
  {| kafka.Value := payload; kafka.Key := EmptyString; kafka.Timestamp := stamp |}.

(** A wake-up of the timer case: the poll answers [ev] and the clock reads
    [t]. *)
Definition tick (ev : option kafka.Event) (t : Time) : Tick :=
  {| polled := ev; now := t; order := asListed; sendErr := None |}.

Definition world (ws : list Wake) : StreamWorld :=
  {| newConsumerErr := None; assignErr := None; wakes := ws |}.

(** A stream request that names topic [metrics], partition 3. *)
Definition req_metrics : RunStreamRequest :=
  {| RPluginContext := pCtx; RPath := "stream"; RData := query_metrics |}.

(** The frame of the time alone, sent at instant [t]. *)
Definition timeOnly (t : Time) : data.Frame :=
  {| data.FrameName := "response";
     data.Fields := [data.NewField "time" (data.VecTime [t])];
     data.Meta := None |}.

Definition error_event (code : kafka.ErrorCode) : kafka.Event :=
  kafka.EvError {| kafka.Code := code; kafka.Str := "broker transport failure" |}.

(** A query over the time range from 100 to 200. *)
Definition query (ref text : string) : DataQuery :=
  {| RefID := ref; JSON := text; QTimeRange := {| From := 100; To := 200 |} |}.

End Samples.

(** More sample inputs: instance settings and their decoder. *)
Module MoreSamples.

Import kafka_helper plugin Samples.

(** The settings [{"bootstrapServers": "broker:9092", "autoOffsetReset": "earliest"}]. *)
Definition settings_json : string :=
  "{" +:+ dq +:+ "bootstrapServers" +:+ dq +:+ ": " +:+ dq +:+ "broker:9092" +:+ dq +:+ ", "
      +:+ dq +:+ "autoOffsetReset" +:+ dq +:+ ": " +:+ dq +:+ "earliest" +:+ dq +:+ "}".

(** A decoder that answers as [encoding/json] does on [settings_json]; every
    other text is treated like [payload_bad]. *)
Definition json_Options (text : string) : Options * option error :=
  if String.eqb text settings_json
  then ({| OptBootstrapServers := "broker:9092";
           OptAutoOffsetReset := "earliest";
           APIKey := EmptyString |}, None)
  else ({| OptBootstrapServers := EmptyString;
           OptAutoOffsetReset := EmptyString;
           APIKey := EmptyString |},
        Some (OtherError "invalid character 'o' in literal null (expecting 'u')")).

Definition instance_settings (secure : gmap string string) : InstanceSettings :=
  {| ISettings := {| UID := "kafka1" |};
     JSONData := settings_json;
     DecryptedSecureJSONData := secure |}.

(** Three wake-ups of the timer: a message, a timeout, a broker error that is
    not fatal. *)
Definition three_ticks : list Tick :=
  [tick (Some (kafka.EvMessage (message payload_ab 5))) 1000;
   tick None 2000;
   tick (Some (error_event kafka.ErrTransport)) 3000].

(** The query [{"topicName": "logs", "partition": 7, "withStreaming": true}],
    and a decoder that knows it besides the texts [json_queryModel] knows. *)
Definition query_logs : string :=
  "{" +:+ dq +:+ "topicName" +:+ dq +:+ ": " +:+ dq +:+ "logs" +:+ dq +:+ ", "
      +:+ dq +:+ "partition" +:+ dq +:+ ": 7, "
      +:+ dq +:+ "withStreaming" +:+ dq +:+ ": true}".

Definition json_queryModel_logs (text : string) : queryModel * option error :=
  if String.eqb text query_logs
  then ({| Topic := "logs"; Partition := 7; WithStreaming := true |}, None)
  else json_queryModel text.

End MoreSamples.

(** ** Derived definitions, to state the properties *)

Import kafka_helper plugin.

(** The field the loop body leaves for an entry of the map: created with one
    zero, then set to the entry's value. *)
Definition column (kv : string * float64) : data.Field :=
  data.NewField kv.1 (data.VecFloat64 [kv.2]).

(** The frame built at time [tnow] for the entries in the order visited. *)
Definition rowFrame (tnow : Time) (entries : list (string * float64)) : data.Frame :=
  {| data.FrameName := "response";
     data.Fields := data.NewField "time" (data.VecTime [tnow]) :: (column <$> entries);
     data.Meta := None |}.

(** The client once [ConsumerInitialize] has succeeded. *)
Definition initialized (c : KafkaClient) : KafkaClient :=
  {| Consumer := Some {| kafka.config := consumerConfig c |};
     BootstrapServers := BootstrapServers c;
     AutoOffsetReset := AutoOffsetReset c |}.

(** The loop body of [QueryData]. *)
Definition respond (json_Unmarshal : string -> queryModel * option error)
    (pCtx : PluginContext)
    (responses : gmap string DataResponse) (q : DataQuery)
    : gmap string DataResponse :=
  <[RefID q := Query json_Unmarshal pCtx q]> responses.

(** The map [ConsumerPull] returns with an event: the decoded payload of a
    message, the nil map with anything else. *)
Definition pulledData (json_Unmarshal : string -> KafkaMessage * option error)
    (ev : kafka.Event) : KafkaMessage :=
  match ev with
  | kafka.EvMessage e => (json_Unmarshal (kafka.Value e)).1
  | _ => ∅
  end.

(** A wake-up whose poll answers the error that makes [ConsumerPull] panic. *)
Definition fatal (tk : Tick) : bool :=
  match polled tk with
  | Some (kafka.EvError e) => kafka.Code e =? kafka.ErrAllBrokersDown
  | _ => false
  end.

(** The frame a wake-up leads to, if any: none when the poll times out. *)
Definition tickFrame (json_Unmarshal : string -> KafkaMessage * option error)
    (tk : Tick) : option data.Frame :=
  match polled tk with
  | None => None
  | Some ev =>
      Some (rowFrame (now tk)
              (order tk (map_to_list (pulledData json_Unmarshal ev))))
  end.

(** The calls of a wake-up that is not fatal: the poll, then the frame. *)
Definition tickActions (json_Unmarshal : string -> KafkaMessage * option error)
    (tk : Tick) : list Action :=
  ActPoll 100 ::
  match tickFrame json_Unmarshal tk with
  | None => []
  | Some f => [ActSendFrame f]
  end.

(** The frames handed to the sender in a trace, in order. *)
Definition sentFrames (t : list Action) : list data.Frame :=
  omap (fun a => match a with ActSendFrame f => Some f | _ => None end) t.

(** The body of the timer case of [streamLoop], with the rest of the loop as
    an argument. *)
Definition afterTick (json_Unmarshal : string -> KafkaMessage * option error)
    (c : KafkaClient) (tk : Tick) (rest : M Stop) : M Stop :=
  (pulled <- ConsumerPull json_Unmarshal c (polled tk);;
   let msg_data : KafkaMessage := fst pulled in
   match snd pulled with
   | None => rest
   | Some _ =>
       frame <- streamFrame (now tk) (order tk (map_to_list msg_data));;
       call (ActSendFrame frame);;
       match sendErr tk with
       | Some _ => rest
       | None => rest
       end
   end)%go.

(** A wake-up with the answer of the sender forgotten. *)
Definition withoutSendErr (w : Wake) : Wake :=
  match w with
  | CtxDone => CtxDone
  | TimerFired tk =>
      TimerFired {| polled := polled tk; now := now tk; order := order tk;
                    sendErr := None |}
  end.

(** A call the loop of a stream may make: a poll of 100 ms or a frame sent. *)
Definition loopAction (a : Action) : Prop :=
  a = ActPoll 100 \/ exists f, a = ActSendFrame f.

(** * Properties *)

(** ** The trace monad *)

Lemma M_eta {A} (m : M A) : m = (trace m, outcome m).
Proof. destruct m; reflexivity. Qed.

Lemma bind_ret {A B} (a : A) (k : A -> M B) : bind (ret a) k = k a.
Proof. unfold bind, ret. destruct (k a); reflexivity. Qed.

Lemma bind_panic {A B} (p : PanicValue) (k : A -> M B) :
  bind (panic p) k = panic p.
Proof. reflexivity. Qed.

Lemma bind_call {B} (act : Action) (k : unit -> M B) :
  bind (call act) k = (act :: trace (k tt), outcome (k tt)).
Proof. unfold bind, call. destruct (k tt); reflexivity. Qed.

(** ** The frame of one event *)

Lemma FieldsSet_last (frame : data.Frame) (key : string) (value : float64) :
  FieldsSet
    (data.appendFields frame [data.NewField key (data.VecFloat64 [0%float])])
    (length (data.Fields frame)) 0 (data.ValFloat64 value) =
  ret (data.appendFields frame [column (key, value)]).
Proof.
  destruct frame as [n fs mt]. unfold FieldsSet, data.appendFields. simpl.
  rewrite list_lookup_middle by reflexivity. simpl.
  rewrite insert_app_r_alt by lia. rewrite Nat.sub_diag. reflexivity.
Qed.

Lemma rangeFields_spec (entries : list (string * float64)) :
  forall frame : data.Frame,
    rangeFields entries frame (length (data.Fields frame)) =
    ret (data.appendFields frame (column <$> entries),
         (length (data.Fields frame) + length entries)%nat).
Proof.
  induction entries as [|[key value] entries IH]; intros frame.
  - destruct frame as [n fs mt]; simpl.
    unfold ret, data.appendFields; simpl.
    rewrite app_nil_r, Nat.add_0_r. reflexivity.
  - cbn [rangeFields]. rewrite FieldsSet_last, bind_ret.
    replace (S (length (data.Fields frame)))
      with (length (data.Fields (data.appendFields frame [column (key, value)])))
      by (simpl; rewrite length_app; simpl; lia).
    rewrite IH. destruct frame as [n fs mt].
    unfold ret, data.appendFields. simpl.
    rewrite <- app_assoc, length_app. simpl.
    replace (length fs + 1 + length entries)%nat
      with (length fs + S (length entries))%nat by lia.
    reflexivity.
Qed.

Lemma FieldsSet_time (tnow : Time) :
  FieldsSet
    (data.appendFields (data.NewFrame "response")
       [data.NewField "time" (data.VecTime [zeroTime])])
    0 0 (data.ValTime tnow) =
  ret (rowFrame tnow []).
Proof. reflexivity. Qed.

Lemma streamFrame_spec (tnow : Time) (entries : list (string * float64)) :
  streamFrame tnow entries = ret (rowFrame tnow entries).
Proof.
  unfold streamFrame. rewrite FieldsSet_time, bind_ret.
  change 1%nat with (length (data.Fields (rowFrame tnow []))).
  rewrite rangeFields_spec, bind_ret. reflexivity.
Qed.

(** ** One pass through the loop *)

Section Loop.

Variable json_Unmarshal : string -> KafkaMessage * option error.

Variable c : KafkaClient.
Variable h : kafka.Consumer.
Hypothesis consumer_ready : Consumer c = Some h.

Lemma ConsumerPull_timeout :
  ConsumerPull json_Unmarshal c None = ([ActPoll 100], Done (∅, None)).
Proof. unfold ConsumerPull. rewrite consumer_ready. reflexivity. Qed.

Lemma ConsumerPull_message (e : kafka.Message) :
  ConsumerPull json_Unmarshal c (Some (kafka.EvMessage e)) =
  ([ActPoll 100],
   Done ((json_Unmarshal (kafka.Value e)).1, Some (kafka.EvMessage e))).
Proof. unfold ConsumerPull. rewrite consumer_ready. reflexivity. Qed.

Lemma ConsumerPull_error (e : kafka.Error) :
  ConsumerPull json_Unmarshal c (Some (kafka.EvError e)) =
  ([ActPoll 100],
   if kafka.Code e =? kafka.ErrAllBrokersDown
   then Panic (PanicError (KafkaError e))
   else Done (∅, Some (kafka.EvError e))).
Proof.
  unfold ConsumerPull. rewrite consumer_ready.
  destruct (kafka.Code e =? kafka.ErrAllBrokersDown); reflexivity.
Qed.

Lemma ConsumerPull_other (tag : string) :
  ConsumerPull json_Unmarshal c (Some (kafka.EvOther tag)) =
  ([ActPoll 100], Done (∅, Some (kafka.EvOther tag))).
Proof. unfold ConsumerPull. rewrite consumer_ready. reflexivity. Qed.

(** After a poll that returned [msg_data] and an event, the loop sends the
    row of [msg_data] and goes on with the next wake-up, whatever the
    sender answers. *)
Lemma streamLoop_deliver (ev : option kafka.Event) (ev' : kafka.Event)
    (msg_data : KafkaMessage) (tnow : Time) (ord : MapOrder)
    (serr : option error) (ws : list Wake) :
  ConsumerPull json_Unmarshal c ev = ([ActPoll 100], Done (msg_data, Some ev')) ->
  streamLoop json_Unmarshal c
    (TimerFired {| polled := ev; now := tnow; order := ord; sendErr := serr |} :: ws) =
  (ActPoll 100 :: ActSendFrame (rowFrame tnow (ord (map_to_list msg_data)))
     :: trace (streamLoop json_Unmarshal c ws),
   outcome (streamLoop json_Unmarshal c ws)).
Proof.
  intros Hpull. cbn [streamLoop polled now order sendErr]. rewrite Hpull.
  cbn [bind fst snd]. rewrite streamFrame_spec, bind_ret, bind_call.
  destruct serr; destruct (streamLoop json_Unmarshal c ws); reflexivity.
Qed.

Lemma streamLoop_timeout (tnow : Time) (ord : MapOrder)
    (serr : option error) (ws : list Wake) :
  streamLoop json_Unmarshal c
    (TimerFired {| polled := None; now := tnow; order := ord; sendErr := serr |} :: ws) =
  (ActPoll 100 :: trace (streamLoop json_Unmarshal c ws),
   outcome (streamLoop json_Unmarshal c ws)).
Proof.
  cbn [streamLoop polled]. rewrite ConsumerPull_timeout.
  cbn [bind fst snd]. destruct (streamLoop json_Unmarshal c ws); reflexivity.
Qed.

Lemma streamLoop_fatal (e : kafka.Error) (tnow : Time) (ord : MapOrder)
    (serr : option error) (ws : list Wake) :
  kafka.Code e = kafka.ErrAllBrokersDown ->
  streamLoop json_Unmarshal c
    (TimerFired {| polled := Some (kafka.EvError e); now := tnow;
                   order := ord; sendErr := serr |} :: ws) =
  ([ActPoll 100], Panic (PanicError (KafkaError e))).
Proof.
  intros Hcode. cbn [streamLoop polled]. rewrite ConsumerPull_error, Hcode.
  reflexivity.
Qed.

End Loop.

(** Every frame the loop sends is the row of some instant and some entries. *)
Lemma streamLoop_sends_rows (json_Unmarshal : string -> KafkaMessage * option error)
    (c : KafkaClient) (ws : list Wake) (f : data.Frame) :
  In (ActSendFrame f) (trace (streamLoop json_Unmarshal c ws)) ->
  exists tnow entries, f = rowFrame tnow entries.
Proof.
  destruct (Consumer c) as [h|] eqn:Hc.
  - induction ws as [|[|[ev tnow ord serr]] ws IH]; intros Hin.
    + destruct Hin.
    + destruct Hin.
    + destruct ev as [[e|e|tag]|].
      * erewrite streamLoop_deliver in Hin
          by (eauto using ConsumerPull_message).
        destruct Hin as [Hin|[Hin|Hin]]; [discriminate | | auto].
        injection Hin as <-. eauto.
      * destruct (Z.eq_dec (kafka.Code e) kafka.ErrAllBrokersDown) as [Hd|Hd].
        -- erewrite streamLoop_fatal in Hin by eauto.
           destruct Hin as [Hin|[]]; discriminate.
        -- erewrite streamLoop_deliver in Hin.
           2: { erewrite ConsumerPull_error by eauto.
                apply Z.eqb_neq in Hd. rewrite Hd. reflexivity. }
           destruct Hin as [Hin|[Hin|Hin]]; [discriminate | | auto].
           injection Hin as <-. eauto.
      * erewrite streamLoop_deliver in Hin
          by (eauto using ConsumerPull_other).
        destruct Hin as [Hin|[Hin|Hin]]; [discriminate | | auto].
        injection Hin as <-. eauto.
      * erewrite streamLoop_timeout in Hin by eauto.
        destruct Hin as [Hin|Hin]; [discriminate | auto].
  - destruct ws as [|[|tk] ws]; intros Hin.
    + destruct Hin.
    + destruct Hin.
    + cbn [streamLoop] in Hin. unfold ConsumerPull in Hin.
      rewrite Hc in Hin. destruct Hin.
Qed.

(** ** RunStream as a whole *)

Lemma RunStream_trace (json_Unmarshal : string -> KafkaMessage * option error)
    (w : StreamWorld) (ds : KafkaDatasource) (req : RunStreamRequest) :
  trace (RunStream json_Unmarshal w ds req) =
  ActNewConsumer (consumerConfig (client ds)) ::
  match newConsumerErr w with
  | Some _ => []
  | None =>
      ActAssign [{| kafka.Topic := EmptyString; kafka.Partition := 0;
                    kafka.Offset := -1 |}] ::
      match assignErr w with
      | Some _ => []
      | None => trace (streamLoop json_Unmarshal (initialized (client ds)) (wakes w))
      end
  end.
Proof.
  unfold RunStream, ConsumerInitialize, TopicAssign.
  destruct (newConsumerErr w) as [e|]; [reflexivity|].
  destruct (assignErr w) as [e|]; [reflexivity|].
  fold (initialized (client ds)).
  unfold bind, call, ret, trace. cbn [app fst Consumer initialized].
  destruct (streamLoop json_Unmarshal (initialized (client ds)) (wakes w)).
  reflexivity.
Qed.

(** C1 fails on the code. [RunStream] does create the consumer and then
    assign it, with offset -1, before the loop makes its first poll; but the
    topic and partition it assigns are those of the zero [queryModel], the
    empty topic and partition 0, whatever the request says: [qm] is declared
    and read, and the request is never decoded into it. So it is for the
    request [Samples.req_metrics], which names topic [metrics] and
    partition 3. *)
Theorem RunStream_assigns_zero_queryModel :
  (forall (json_Unmarshal : string -> KafkaMessage * option error)
          (w : StreamWorld) (ds : KafkaDatasource) (req : RunStreamRequest),
      trace (RunStream json_Unmarshal w ds req) =
      ActNewConsumer (consumerConfig (client ds)) ::
      match newConsumerErr w with
      | Some _ => []
      | None =>
          ActAssign [{| kafka.Topic := EmptyString; kafka.Partition := 0;
                        kafka.Offset := -1 |}] ::
          match assignErr w with
          | Some _ => []
          | None =>
              trace (streamLoop json_Unmarshal (initialized (client ds)) (wakes w))
          end
      end)
  /\ Samples.json_queryModel (RData Samples.req_metrics) =
       ({| Topic := "metrics"; Partition := 3; WithStreaming := true |}, None)
  /\ RunStream Samples.json_KafkaMessage (Samples.world [CtxDone])
       Samples.ds Samples.req_metrics =
     ([ActNewConsumer (consumerConfig (client Samples.ds));
       ActAssign [{| kafka.Topic := EmptyString; kafka.Partition := 0;
                     kafka.Offset := -1 |}]],
      Done ReturnedNil).
Proof.
  split; [|split]; [|reflexivity|reflexivity].
  intros. apply RunStream_trace.
Qed.

(** ** The rows of the stream *)

Section Rows.

Variable json_Unmarshal : string -> KafkaMessage * option error.

Lemma streamLoop_message (c : KafkaClient) (h : kafka.Consumer)
    (e : kafka.Message) (tnow : Time) (ord : MapOrder)
    (serr : option error) (ws : list Wake) :
  Consumer c = Some h ->
  streamLoop json_Unmarshal c
    (TimerFired {| polled := Some (kafka.EvMessage e); now := tnow;
                   order := ord; sendErr := serr |} :: ws) =
  (ActPoll 100
     :: ActSendFrame
          (rowFrame tnow (ord (map_to_list (json_Unmarshal (kafka.Value e)).1)))
     :: trace (streamLoop json_Unmarshal c ws),
   outcome (streamLoop json_Unmarshal c ws)).
Proof.
  intros Hc. eapply streamLoop_deliver, ConsumerPull_message, Hc.
Qed.


(** C3, amended: a message whose payload decodes to the mapping [m] yields
    one row: its first column is named [time] and holds the clock reading
    [tnow] of the iteration (the message's own [Timestamp] is not used); the
    columns after it are one per key of [m] and no other, each holding the
    value [m] has for its key. Their order is the order in which the loop's
    [range] visits the entries of [m], which Go leaves unspecified: some
    permutation of the keys, not necessarily the order of the payload. *)
Theorem streamLoop_row_of_message (c : KafkaClient) (h : kafka.Consumer)
    (payload key : string) (stamp tnow : Time) (ord : MapOrder)
    (serr : option error) (ws : list Wake) (m : KafkaMessage) :
  Consumer c = Some h ->
  json_Unmarshal payload = (m, None) ->
  let cols :=
    (fun kv => data.NewField kv.1 (data.VecFloat64 [kv.2]))
      <$> ord (map_to_list m) in
  streamLoop json_Unmarshal c
    (TimerFired
       {| polled := Some (kafka.EvMessage
                            {| kafka.Value := payload; kafka.Key := key;
                               kafka.Timestamp := stamp |});
          now := tnow; order := ord; sendErr := serr |} :: ws) =
  (ActPoll 100
     :: ActSendFrame
          {| data.FrameName := "response";
             data.Fields := data.NewField "time" (data.VecTime [tnow]) :: cols;
             data.Meta := None |}
     :: trace (streamLoop json_Unmarshal c ws),
   outcome (streamLoop json_Unmarshal c ws))
  /\ data.Name <$> cols ≡ₚ (map_to_list m).*1
  /\ NoDup (data.Name <$> cols)
  /\ (forall k v,
        data.NewField k (data.VecFloat64 [v]) ∈ cols <-> m !! k = Some v).
Proof.
  intros Hc Hdec cols.
  assert (Hnames : data.Name <$> cols = (ord (map_to_list m)).*1).
  { unfold cols. rewrite <- list_fmap_compose. reflexivity. }
  split; [|split; [|split]].
  - erewrite streamLoop_message by exact Hc. cbn [kafka.Value].
    rewrite Hdec. reflexivity.
  - rewrite Hnames. apply fmap_Permutation, visit_perm.
  - rewrite Hnames.
    assert (Hp : (ord (map_to_list m)).*1 ≡ₚ (map_to_list m).*1)
      by apply fmap_Permutation, visit_perm.
    rewrite Hp. apply NoDup_fst_map_to_list.
  - intros k v. unfold cols. rewrite list_elem_of_fmap. split.
    + intros [[k' v'] [Heq Hin]]. injection Heq as -> ->.
      rewrite (visit_perm ord) in Hin.
      apply elem_of_map_to_list in Hin. exact Hin.
    + intros Hlk. exists (k, v). split; [reflexivity|].
      rewrite (visit_perm ord). apply elem_of_map_to_list. exact Hlk.
Qed.

(** C4: an error event of a poll ends the run, by a panic, exactly when its
    code is [ErrAllBrokersDown]; after an error event of any other code the
    loop goes on with the next wake-up (having sent a frame that holds the
    time alone). No other answer of a poll makes an iteration panic. *)
Theorem streamLoop_fatal_iff_all_brokers_down (c : KafkaClient)
    (h : kafka.Consumer) :
  Consumer c = Some h ->
  (forall (e : kafka.Error) (tnow : Time) (ord : MapOrder)
          (serr : option error) (ws : list Wake),
      streamLoop json_Unmarshal c
        (TimerFired {| polled := Some (kafka.EvError e); now := tnow;
                       order := ord; sendErr := serr |} :: ws) =
      if kafka.Code e =? kafka.ErrAllBrokersDown
      then ([ActPoll 100], Panic (PanicError (KafkaError e)))
      else (ActPoll 100
              :: ActSendFrame
                   {| data.FrameName := "response";
                      data.Fields := [data.NewField "time" (data.VecTime [tnow])];
                      data.Meta := None |}
              :: trace (streamLoop json_Unmarshal c ws),
            outcome (streamLoop json_Unmarshal c ws)))
  /\ (forall (tk : Tick) (p : PanicValue),
        outcome (streamLoop json_Unmarshal c [TimerFired tk]) = Panic p <->
        exists e, polled tk = Some (kafka.EvError e)
                  /\ kafka.Code e = kafka.ErrAllBrokersDown
                  /\ p = PanicError (KafkaError e)).
Proof.
  intros Hc.
  assert (Hstep : forall e tnow ord serr ws,
    streamLoop json_Unmarshal c
      (TimerFired {| polled := Some (kafka.EvError e); now := tnow;
                     order := ord; sendErr := serr |} :: ws) =
    if kafka.Code e =? kafka.ErrAllBrokersDown
    then ([ActPoll 100], Panic (PanicError (KafkaError e)))
    else (ActPoll 100 :: ActSendFrame (rowFrame tnow [])
            :: trace (streamLoop json_Unmarshal c ws),
          outcome (streamLoop json_Unmarshal c ws))).
  { intros e tnow ord serr ws.
    destruct (kafka.Code e =? kafka.ErrAllBrokersDown) eqn:Hcode.
    - apply Z.eqb_eq in Hcode. eapply streamLoop_fatal; eassumption.
    - erewrite streamLoop_deliver.
      2: { erewrite ConsumerPull_error by exact Hc. rewrite Hcode. reflexivity. }
      rewrite map_to_list_empty.
      pose proof (visit_perm ord []) as Hp.
      apply Permutation_nil_r in Hp. rewrite Hp. reflexivity. }
  split; [exact Hstep|].
  intros [ev tnow ord serr] p. cbn [polled]. split.
  - destruct ev as [[e|e|tag]|].
    + erewrite streamLoop_message by exact Hc. discriminate.
    + rewrite Hstep.
      destruct (kafka.Code e =? kafka.ErrAllBrokersDown) eqn:Hcode.
      * intros Hp. injection Hp as <-. apply Z.eqb_eq in Hcode. eauto.
      * discriminate.
    + erewrite streamLoop_deliver by (eapply ConsumerPull_other, Hc).
      discriminate.
    + erewrite streamLoop_timeout by exact Hc. discriminate.
  - intros (e & -> & Hcode & ->). rewrite Hstep.
    apply Z.eqb_eq in Hcode. rewrite Hcode. reflexivity.
Qed.

End Rows.

(** C10: every frame [RunStream] hands to the sender starts with a field
    named [time] that holds one instant, and each field after it holds one
    [float64]; the frame built for an empty mapping is the time field alone. *)
Theorem RunStream_frames_well_formed
    (json_Unmarshal : string -> KafkaMessage * option error) :
  (forall (w : StreamWorld) (ds : KafkaDatasource) (req : RunStreamRequest)
          (f : data.Frame),
      In (ActSendFrame f) (trace (RunStream json_Unmarshal w ds req)) ->
      exists (t : Time) (cols : list data.Field),
        data.Fields f = data.NewField "time" (data.VecTime [t]) :: cols
        /\ Forall (fun fld => exists v, data.vector fld = data.VecFloat64 [v]) cols)
  /\ (forall (tnow : Time) (ord : MapOrder),
        streamFrame tnow (ord (map_to_list (∅ : KafkaMessage))) =
        ret {| data.FrameName := "response";
               data.Fields := [data.NewField "time" (data.VecTime [tnow])];
               data.Meta := None |}).
Proof.
  split.
  - intros w ds req f Hin. rewrite RunStream_trace in Hin.
    destruct Hin as [Hin|Hin]; [discriminate|].
    destruct (newConsumerErr w); [destruct Hin|].
    destruct Hin as [Hin|Hin]; [discriminate|].
    destruct (assignErr w); [destruct Hin|].
    apply streamLoop_sends_rows in Hin as (tnow & entries & ->).
    exists tnow, (column <$> entries). split; [reflexivity|].
    apply Forall_fmap, Forall_forall. intros [k v] _. exists v. reflexivity.
  - intros tnow ord. rewrite streamFrame_spec, map_to_list_empty.
    pose proof (visit_perm ord []) as Hp.
    apply Permutation_nil_r in Hp. rewrite Hp. reflexivity.
Qed.

(** ** Health check *)

(** C5: once the consumer is created, the health check answers
    [HealthStatusError] with "Cannot connect to the brokers." exactly when the
    metadata probe fails with an error of code [ErrTransport], and
    [HealthStatusOk] in every other case: no error, or an error of any other
    code. *)
Theorem CheckHealth_error_iff_transport (probe : option kafka.Error)
    (d : KafkaDatasource) (req : CheckHealthRequest) :
  exists res : CheckHealthResult,
    CheckHealth None (KafkaError <$> probe) d req =
      ([ActNewConsumer (consumerConfig (client d));
        ActGetMetadata EmptyString false 200], Done res)
    /\ (res = {| Status := HealthStatusError;
                 Message := "Cannot connect to the brokers." |}
        <-> exists e, probe = Some e /\ kafka.Code e = kafka.ErrTransport)
    /\ (Status res = HealthStatusOk
        <-> ~ exists e, probe = Some e /\ kafka.Code e = kafka.ErrTransport).
Proof.
  destruct probe as [e|].
  - destruct (kafka.Code e =? kafka.ErrTransport) eqn:Hcode.
    + exists {| Status := HealthStatusError;
                Message := "Cannot connect to the brokers." |}.
      apply Z.eqb_eq in Hcode.
      split; [|split].
      * unfold CheckHealth, HealthCheck, ConsumerInitialize. simpl.
        apply Z.eqb_eq in Hcode. rewrite Hcode. reflexivity.
      * split; eauto.
      * simpl. split; [discriminate|]. intros Hn. destruct Hn. eauto.
    + exists {| Status := HealthStatusOk; Message := "Data source is working..." |}.
      apply Z.eqb_neq in Hcode.
      split; [|split].
      * unfold CheckHealth, HealthCheck, ConsumerInitialize. simpl.
        apply Z.eqb_neq in Hcode. rewrite Hcode. reflexivity.
      * split; [discriminate|]. intros (e' & He' & Hc'). congruence.
      * simpl. split; [|reflexivity]. intros _ (e' & He' & Hc'). congruence.
  - exists {| Status := HealthStatusOk; Message := "Data source is working..." |}.
    split; [reflexivity|split].
    + split; [discriminate|]. intros (e' & He' & _). discriminate.
    + simpl. split; [|reflexivity]. intros _ (e' & He' & _). discriminate.
Qed.

(** When the consumer cannot be created, the health check panics before it
    probes anything. *)
Lemma CheckHealth_without_consumer (err : error) (metadataErr : option error)
    (d : KafkaDatasource) (req : CheckHealthRequest) :
  CheckHealth (Some err) metadataErr d req =
  ([ActNewConsumer (consumerConfig (client d))], Panic (PanicError err)).
Proof. reflexivity. Qed.

(** ** Queries *)

Section Queries.

Variable json_Unmarshal : string -> queryModel * option error.

(** C6: a query whose JSON decodes gets a response without error and with
    one frame: a [time] field holding the two ends of the query's time
    range, a [values] field holding two zeros, and as metadata the channel
    of path [stream] when [withStreaming] is set, none when it is not. *)
Theorem Query_decoded (pCtx : PluginContext) (query : DataQuery)
    (qm : queryModel) :
  json_Unmarshal (JSON query) = (qm, None) ->
  exists frame : data.Frame,
    Query json_Unmarshal pCtx query = {| Frames := [frame]; Error := None |}
    /\ data.Fields frame =
         [data.NewField "time"
            (data.VecTime [From (QTimeRange query); To (QTimeRange query)]);
          data.NewField "values" (data.VecInt64 [0; 0])]
    /\ (WithStreaming qm = true ->
        data.Meta frame =
          Some {| data.Channel :=
                    live.String {| live.Scope := live.ScopeDatasource;
                                   live.Namespace := UID (DSInstanceSettings pCtx);
                                   live.Path := "stream" |} |})
    /\ (WithStreaming qm = false -> data.Meta frame = None)
    /\ (is_Some (data.Meta frame) <-> WithStreaming qm = true).
Proof.
  intros Hdec. unfold Query. rewrite Hdec.
  destruct (WithStreaming qm); eexists; (split; [reflexivity|]); simpl;
    repeat split; try discriminate; eauto.
  intros [x Hx]. discriminate.
Qed.

Lemma respond_all_other (pCtx : PluginContext) (qs : list DataQuery) (r : string) :
  forall responses : gmap string DataResponse,
    r ∉ RefID <$> qs ->
    fold_left (respond json_Unmarshal pCtx) qs responses !! r = responses !! r.
Proof.
  induction qs as [|q qs IH]; intros responses Hnot; [reflexivity|].
  rewrite fmap_cons, not_elem_of_cons in Hnot. destruct Hnot as [Hne Hnot].
  simpl. rewrite IH by exact Hnot.
  unfold respond. apply lookup_insert_ne. congruence.
Qed.

Lemma respond_all_agree (pCtx : PluginContext) (qs : list DataQuery) (r : string) :
  forall m m' : gmap string DataResponse,
    m !! r = m' !! r ->
    fold_left (respond json_Unmarshal pCtx) qs m !! r = fold_left (respond json_Unmarshal pCtx) qs m' !! r.
Proof.
  induction qs as [|q qs IH]; intros m m' Heq; [exact Heq|].
  simpl. apply IH. unfold respond.
  destruct (decide (RefID q = r)) as [->|Hne].
  - rewrite !lookup_insert_eq. reflexivity.
  - rewrite !lookup_insert_ne by exact Hne. exact Heq.
Qed.

(** C7: a query whose JSON does not decode gets a response that carries
    the decoding error and no frame; the request's response map holds that
    response under the query's [RefID] (the identifier is unique, so no
    later query of the request carries it again), and holds under every
    other [RefID] what it would hold were the failing query not in the
    request. *)
Theorem QueryData_malformed_query (pCtx : PluginContext)
    (qs1 qs2 : list DataQuery) (bad : DataQuery)
    (qm : queryModel) (e : error) :
  json_Unmarshal (JSON bad) = (qm, Some e) ->
  Query json_Unmarshal pCtx bad = {| Frames := []; Error := Some e |}
  /\ (RefID bad ∉ RefID <$> qs2 ->
      Responses (QueryData json_Unmarshal
                   {| QPluginContext := pCtx; Queries := qs1 ++ bad :: qs2 |})
        !! RefID bad
      = Some {| Frames := []; Error := Some e |})
  /\ (forall r : string,
        r <> RefID bad ->
        Responses (QueryData json_Unmarshal
                     {| QPluginContext := pCtx; Queries := qs1 ++ bad :: qs2 |})
          !! r
        = Responses (QueryData json_Unmarshal
                       {| QPluginContext := pCtx; Queries := qs1 ++ qs2 |})
            !! r).
Proof.
  intros Hdec.
  assert (Hq : Query json_Unmarshal pCtx bad = {| Frames := []; Error := Some e |}).
  { unfold Query. rewrite Hdec. reflexivity. }
  unfold QueryData. cbn [Responses QPluginContext Queries].
  change (fun responses q =>
            <[RefID q := Query json_Unmarshal pCtx q]> responses)
    with (respond json_Unmarshal pCtx).
  rewrite !fold_left_app. cbn [fold_left].
  split; [exact Hq|split].
  - intros Hnot. rewrite respond_all_other by exact Hnot.
    unfold respond. rewrite lookup_insert_eq, Hq. reflexivity.
  - intros r Hr. apply respond_all_agree. unfold respond.
    apply lookup_insert_ne. congruence.
Qed.

End Queries.

(** ** Subscribing and publishing *)

(** C8: a subscription is granted exactly when the path of the request is
    the string [stream]; every other path is denied, the empty path and
    [Stream] among them. *)
Theorem SubscribeStream_granted_iff_stream (req : SubscribeStreamRequest) :
  (SStatus (SubscribeStream req) = SubscribeStreamStatusOK
   <-> SPath req = "stream")
  /\ (SStatus (SubscribeStream req) = SubscribeStreamStatusPermissionDenied
      <-> SPath req <> "stream")
  /\ SStatus (SubscribeStream
                {| SPluginContext := SPluginContext req;
                   SPath := EmptyString; SData := SData req |})
     = SubscribeStreamStatusPermissionDenied
  /\ SStatus (SubscribeStream
                {| SPluginContext := SPluginContext req;
                   SPath := "Stream"; SData := SData req |})
     = SubscribeStreamStatusPermissionDenied.
Proof.
  unfold SubscribeStream. cbn [SStatus SPath].
  destruct (String.eqb_spec (SPath req) "stream") as [Heq|Hne].
  - repeat split; try discriminate; try (intros; exact Heq).
    intros H. destruct (H Heq).
  - repeat split; try discriminate; try (intros; exact Hne).
    intros H. destruct (Hne H).
Qed.

(** C9: every publish request is answered with [PermissionDenied], whatever
    its path and payload. *)
Theorem PublishStream_always_denied (req : PublishStreamRequest) :
  PStatus (PublishStream req) = PublishStreamStatusPermissionDenied.
Proof. reflexivity. Qed.

(** * The theorems at sample inputs *)

Module Checks.

Import Samples.



Lemma streamLoop_row_of_message_witness :
  streamLoop json_KafkaMessage ready
    [TimerFired (tick (Some (kafka.EvMessage (message payload_ab 5))) 1000)] =
  ([ActPoll 100;
    ActSendFrame
      {| data.FrameName := "response";
         data.Fields :=
           [data.NewField "time" (data.VecTime [1000]);
            data.NewField "a" (data.VecFloat64 [1%float]);
            data.NewField "b" (data.VecFloat64 [2.5%float])];
         data.Meta := None |}],
   Done Waiting).
Proof.
  exact (proj1 (streamLoop_row_of_message json_KafkaMessage ready
                  {| kafka.config := consumerConfig (client ds) |}
                  payload_ab EmptyString 5 1000 asListed None []
                  (<["a" := 1%float]> (<["b" := 2.5%float]> ∅))
                  eq_refl eq_refl)).
Defined.

(** The same message when the [range] walks the map the other way round:
    the columns follow the walk. *)
Example streamLoop_row_reversed :
  streamLoop json_KafkaMessage ready
    [TimerFired {| polled := Some (kafka.EvMessage (message payload_ab 5));
                   now := 1000; order := reversed; sendErr := None |}] =
  ([ActPoll 100;
    ActSendFrame
      {| data.FrameName := "response";
         data.Fields :=
           [data.NewField "time" (data.VecTime [1000]);
            data.NewField "b" (data.VecFloat64 [2.5%float]);
            data.NewField "a" (data.VecFloat64 [1%float])];
         data.Meta := None |}],
   Done Waiting).
Proof. reflexivity. Qed.

(** C3, as stated, fails on its order: the payload [{"a": 1.0, "b": 2.5}]
    decodes to the two keys [a] and [b], and a run in which the [range]
    visits [b] first sends the row [time, b, a], not [time, a, b]. *)
Lemma streamLoop_row_not_in_payload_order :
  json_KafkaMessage payload_ab =
    (<["a" := 1%float]> (<["b" := 2.5%float]> ∅), None)
  /\ streamLoop json_KafkaMessage ready
       [TimerFired {| polled := Some (kafka.EvMessage (message payload_ab 5));
                      now := 1000; order := reversed; sendErr := None |}] =
     ([ActPoll 100;
       ActSendFrame
         {| data.FrameName := "response";
            data.Fields :=
              [data.NewField "time" (data.VecTime [1000]);
               data.NewField "b" (data.VecFloat64 [2.5%float]);
               data.NewField "a" (data.VecFloat64 [1%float])];
            data.Meta := None |}],
      Done Waiting)
  /\ [data.NewField "time" (data.VecTime [1000]);
      data.NewField "b" (data.VecFloat64 [2.5%float]);
      data.NewField "a" (data.VecFloat64 [1%float])]
     <> [data.NewField "time" (data.VecTime [1000]);
         data.NewField "a" (data.VecFloat64 [1%float]);
         data.NewField "b" (data.VecFloat64 [2.5%float])].
Proof. split; [reflexivity|]. split; [reflexivity | discriminate]. Qed.

Lemma streamLoop_fatal_iff_all_brokers_down_witness :
  streamLoop json_KafkaMessage ready
    [TimerFired (tick (Some (error_event kafka.ErrAllBrokersDown)) 1000);
     TimerFired (tick None 2000)] =
  ([ActPoll 100],
   Panic (PanicError (KafkaError {| kafka.Code := kafka.ErrAllBrokersDown;
                                    kafka.Str := "broker transport failure" |})))
  /\ streamLoop json_KafkaMessage ready
       [TimerFired (tick (Some (error_event kafka.ErrTransport)) 1000);
        TimerFired (tick None 2000)] =
     ([ActPoll 100; ActSendFrame (timeOnly 1000); ActPoll 100], Done Waiting).
Proof.
  pose proof (proj1 (streamLoop_fatal_iff_all_brokers_down json_KafkaMessage ready
                       {| kafka.config := consumerConfig (client ds) |} eq_refl))
    as Hstep.
  split.
  - exact (Hstep {| kafka.Code := kafka.ErrAllBrokersDown;
                    kafka.Str := "broker transport failure" |}
             1000 asListed None [TimerFired (tick None 2000)]).
  - exact (Hstep {| kafka.Code := kafka.ErrTransport;
                    kafka.Str := "broker transport failure" |}
             1000 asListed None [TimerFired (tick None 2000)]).
Defined.

Lemma RunStream_frames_well_formed_witness :
  exists (t : Time) (cols : list data.Field),
    [data.NewField "time" (data.VecTime [1000]);
     data.NewField "a" (data.VecFloat64 [1%float]);
     data.NewField "b" (data.VecFloat64 [2.5%float])] =
    data.NewField "time" (data.VecTime [t]) :: cols
    /\ Forall (fun fld => exists v, data.vector fld = data.VecFloat64 [v]) cols.
Proof.
  apply (proj1 (RunStream_frames_well_formed json_KafkaMessage)
           (world [TimerFired (tick (Some (kafka.EvMessage (message payload_ab 5))) 1000);
                   CtxDone])
           ds req_metrics
           {| data.FrameName := "response";
              data.Fields :=
                [data.NewField "time" (data.VecTime [1000]);
                 data.NewField "a" (data.VecFloat64 [1%float]);
                 data.NewField "b" (data.VecFloat64 [2.5%float])];
              data.Meta := None |}).
  simpl. right. right. right. left. reflexivity.
Defined.

Lemma Query_decoded_witness :
  exists frame : data.Frame,
    Query json_queryModel pCtx (query "A" query_metrics) =
      {| Frames := [frame]; Error := None |}
    /\ data.Fields frame =
         [data.NewField "time" (data.VecTime [100; 200]);
          data.NewField "values" (data.VecInt64 [0; 0])]
    /\ data.Meta frame = Some {| data.Channel := "ds/kafka1/stream" |}.
Proof.
  destruct (Query_decoded json_queryModel pCtx (query "A" query_metrics)
              {| Topic := "metrics"; Partition := 3; WithStreaming := true |}
              eq_refl)
    as (frame & Hres & Hfields & Hon & _).
  exists frame. split; [exact Hres|]. split; [exact Hfields|].
  exact (Hon eq_refl).
Defined.

Lemma QueryData_malformed_query_witness :
  Responses (QueryData json_queryModel
               {| QPluginContext := pCtx;
                  Queries := [query "A" query_metrics; query "B" payload_bad;
                              query "C" "{}"] |})
    !! "B"
  = Some {| Frames := [];
            Error := Some (OtherError
                             "invalid character 'o' in literal null (expecting 'u')") |}
  /\ Responses (QueryData json_queryModel
                  {| QPluginContext := pCtx;
                     Queries := [query "A" query_metrics; query "B" payload_bad;
                                 query "C" "{}"] |})
       !! "A"
     = Responses (QueryData json_queryModel
                    {| QPluginContext := pCtx;
                       Queries := [query "A" query_metrics; query "C" "{}"] |})
         !! "A".
Proof.
  destruct (QueryData_malformed_query json_queryModel pCtx
              [query "A" query_metrics] [query "C" "{}"] (query "B" payload_bad)
              zero_queryModel
              (OtherError "invalid character 'o' in literal null (expecting 'u')")
              eq_refl)
    as (_ & Hown & Hothers).
  split.
  - apply Hown. simpl. intros Hin.
    apply list_elem_of_singleton in Hin. discriminate.
  - apply Hothers. discriminate.
Defined.

End Checks.

(** * More of the code *)

(** ** The loop of a stream, wake-up by wake-up *)

Section LoopFacts.

Variable json_Unmarshal : string -> KafkaMessage * option error.

Lemma streamLoop_cons (c : KafkaClient) (tk : Tick) (ws : list Wake) :
  streamLoop json_Unmarshal c (TimerFired tk :: ws) =
  afterTick json_Unmarshal c tk (streamLoop json_Unmarshal c ws).
Proof. reflexivity. Qed.

Lemma afterTick_no_consumer (c : KafkaClient) (tk : Tick) (rest : M Stop) :
  Consumer c = None ->
  afterTick json_Unmarshal c tk rest =
  ([], Panic (RuntimeError "nil pointer dereference")).
Proof. intros Hc. unfold afterTick, ConsumerPull. rewrite Hc. reflexivity. Qed.

Lemma afterTick_nonfatal (c : KafkaClient) (h : kafka.Consumer) (tk : Tick)
    (rest : M Stop) :
  Consumer c = Some h ->
  fatal tk = false ->
  afterTick json_Unmarshal c tk rest =
  (tickActions json_Unmarshal tk ++ trace rest, outcome rest).
Proof.
  intros Hc Hnf. destruct tk as [ev tnow ord serr].
  unfold fatal in Hnf. unfold afterTick, tickActions, tickFrame.
  cbn [polled now order sendErr] in *.
  destruct ev as [[e|e|tag]|].
  - rewrite (ConsumerPull_message json_Unmarshal c h Hc). cbn [bind fst snd].
    rewrite streamFrame_spec, bind_ret, bind_call.
    destruct serr; destruct rest; reflexivity.
  - rewrite (ConsumerPull_error json_Unmarshal c h Hc), Hnf. cbn [bind fst snd].
    rewrite streamFrame_spec, bind_ret, bind_call.
    destruct serr; destruct rest; reflexivity.
  - rewrite (ConsumerPull_other json_Unmarshal c h Hc). cbn [bind fst snd].
    rewrite streamFrame_spec, bind_ret, bind_call.
    destruct serr; destruct rest; reflexivity.
  - rewrite (ConsumerPull_timeout json_Unmarshal c h Hc). cbn [bind fst snd].
    destruct rest; reflexivity.
Qed.

Lemma afterTick_fatal (c : KafkaClient) (h : kafka.Consumer) (tk : Tick)
    (rest : M Stop) :
  Consumer c = Some h ->
  fatal tk = true ->
  exists e : kafka.Error,
    polled tk = Some (kafka.EvError e)
    /\ kafka.Code e = kafka.ErrAllBrokersDown
    /\ afterTick json_Unmarshal c tk rest =
       ([ActPoll 100], Panic (PanicError (KafkaError e))).
Proof.
  intros Hc Hf. destruct tk as [ev tnow ord serr].
  unfold fatal in Hf. cbn [polled] in *.
  destruct ev as [[e|e|tag]|]; try discriminate.
  exists e. split; [reflexivity|]. split; [apply Z.eqb_eq, Hf|].
  unfold afterTick. cbn [polled].
  rewrite (ConsumerPull_error json_Unmarshal c h Hc), Hf. reflexivity.
Qed.

Lemma streamLoop_ticks (c : KafkaClient) (h : kafka.Consumer) (tks : list Tick) :
  Consumer c = Some h ->
  Forall (fun tk => fatal tk = false) tks ->
  forall ws : list Wake,
    streamLoop json_Unmarshal c ((TimerFired <$> tks) ++ ws) =
    (concat (tickActions json_Unmarshal <$> tks)
       ++ trace (streamLoop json_Unmarshal c ws),
     outcome (streamLoop json_Unmarshal c ws)).
Proof.
  intros Hc Hnf ws. induction Hnf as [|tk tks Htk _ IH].
  - apply M_eta.
  - rewrite !fmap_cons. cbn [app concat].
    rewrite streamLoop_cons, IH, (afterTick_nonfatal c h tk _ Hc Htk).
    cbn [trace outcome fst snd]. rewrite app_assoc. reflexivity.
Qed.

Lemma sentFrames_tickActions (tk : Tick) :
  sentFrames (tickActions json_Unmarshal tk) =
  option_list (tickFrame json_Unmarshal tk).
Proof.
  unfold tickActions. destruct (tickFrame json_Unmarshal tk); reflexivity.
Qed.

Lemma sentFrames_ticks (tks : list Tick) :
  sentFrames (concat (tickActions json_Unmarshal <$> tks)) =
  omap (tickFrame json_Unmarshal) tks.
Proof.
  induction tks as [|tk tks IH]; [reflexivity|].
  rewrite fmap_cons. cbn [concat]. unfold sentFrames in *.
  rewrite omap_app, IH. fold (sentFrames (tickActions json_Unmarshal tk)).
  rewrite sentFrames_tickActions.
  destruct (tickFrame json_Unmarshal tk) eqn:Hf; simpl; rewrite Hf; reflexivity.
Qed.

Lemma streamLoop_panic (c : KafkaClient) (h : kafka.Consumer) (ws : list Wake)
    (p : PanicValue) :
  Consumer c = Some h ->
  outcome (streamLoop json_Unmarshal c ws) = Panic p ->
  exists (tk : Tick) (e : kafka.Error),
    In (TimerFired tk) ws
    /\ polled tk = Some (kafka.EvError e)
    /\ kafka.Code e = kafka.ErrAllBrokersDown
    /\ p = PanicError (KafkaError e).
Proof.
  intros Hc. induction ws as [|[|tk] ws IH]; intros Hp; try discriminate.
  rewrite streamLoop_cons in Hp. destruct (fatal tk) eqn:Hf.
  - destruct (afterTick_fatal c h tk (streamLoop json_Unmarshal c ws) Hc Hf)
      as (e & Hev & Hcode & Heq).
    rewrite Heq in Hp. injection Hp as <-.
    exists tk, e. repeat split; auto. left. reflexivity.
  - rewrite (afterTick_nonfatal c h tk _ Hc Hf) in Hp.
    destruct (IH Hp) as (tk' & e & Hin & Hrest).
    exists tk', e. split; [right; exact Hin | exact Hrest].
Qed.

Lemma streamLoop_stop (c : KafkaClient) (ws : list Wake) :
  (outcome (streamLoop json_Unmarshal c ws) = Done ReturnedNil -> In CtxDone ws)
  /\ (outcome (streamLoop json_Unmarshal c ws) = Done Waiting -> ~ In CtxDone ws).
Proof.
  destruct (Consumer c) as [h|] eqn:Hc.
  - induction ws as [|[|tk] ws [IH1 IH2]].
    + split; [discriminate | intros _ []].
    + split; [intros _; left; reflexivity | discriminate].
    + rewrite streamLoop_cons. destruct (fatal tk) eqn:Hf.
      * destruct (afterTick_fatal c h tk (streamLoop json_Unmarshal c ws) Hc Hf)
          as (e & _ & _ & ->).
        split; discriminate.
      * rewrite (afterTick_nonfatal c h tk _ Hc Hf). cbn [outcome snd].
        split.
        -- intros Hr. right. exact (IH1 Hr).
        -- intros Hw [Hin|Hin]; [discriminate | exact (IH2 Hw Hin)].
  - destruct ws as [|[|tk] ws].
    + split; [discriminate | intros _ []].
    + split; [intros _; left; reflexivity | discriminate].
    + rewrite streamLoop_cons, afterTick_no_consumer by exact Hc.
      split; discriminate.
Qed.

Lemma streamLoop_actions (c : KafkaClient) (ws : list Wake) :
  Forall loopAction (trace (streamLoop json_Unmarshal c ws)).
Proof.
  destruct (Consumer c) as [h|] eqn:Hc.
  - induction ws as [|[|tk] ws IH]; try apply Forall_nil_2.
    rewrite streamLoop_cons. destruct (fatal tk) eqn:Hf.
    + destruct (afterTick_fatal c h tk (streamLoop json_Unmarshal c ws) Hc Hf)
        as (e & _ & _ & ->).
      apply Forall_cons_2; [left; reflexivity | apply Forall_nil_2].
    + rewrite (afterTick_nonfatal c h tk _ Hc Hf). cbn [trace fst].
      apply Forall_app_2; [|exact IH].
      unfold tickActions. apply Forall_cons_2; [left; reflexivity|].
      destruct (tickFrame json_Unmarshal tk) as [f|].
      * apply Forall_cons_2; [right; eauto | apply Forall_nil_2].
      * apply Forall_nil_2.
  - destruct ws as [|[|tk] ws]; try apply Forall_nil_2.
    rewrite streamLoop_cons, afterTick_no_consumer by exact Hc.
    apply Forall_nil_2.
Qed.

End LoopFacts.

Lemma RunStream_unfold (json_Unmarshal : string -> KafkaMessage * option error)
    (w : StreamWorld) (ds : KafkaDatasource) (req : RunStreamRequest) :
  RunStream json_Unmarshal w ds req =
  match newConsumerErr w with
  | Some err =>
      ([ActNewConsumer (consumerConfig (client ds))], Panic (PanicError err))
  | None =>
      match assignErr w with
      | Some err =>
          ([ActNewConsumer (consumerConfig (client ds));
            ActAssign [{| kafka.Topic := EmptyString; kafka.Partition := 0;
                          kafka.Offset := -1 |}]],
           Panic (PanicError err))
      | None =>
          (ActNewConsumer (consumerConfig (client ds))
             :: ActAssign [{| kafka.Topic := EmptyString; kafka.Partition := 0;
                              kafka.Offset := -1 |}]
             :: trace (streamLoop json_Unmarshal (initialized (client ds)) (wakes w)),
           outcome (streamLoop json_Unmarshal (initialized (client ds)) (wakes w)))
      end
  end.
Proof.
  unfold RunStream, ConsumerInitialize, TopicAssign.
  destruct (newConsumerErr w) as [e|]; [reflexivity|].
  destruct (assignErr w) as [e|]; [reflexivity|].
  fold (initialized (client ds)).
  unfold bind, call, ret, trace, outcome. cbn [app fst snd Consumer initialized].
  destruct (streamLoop json_Unmarshal (initialized (client ds)) (wakes w)).
  reflexivity.
Qed.

(** ** The stream over many wake-ups *)

(** X1: while no poll answers the fatal broker error, the loop makes one
    poll per wake-up of the timer, and the frames it hands to the sender are,
    in the order of the wake-ups, the rows of the polls that returned an
    event: none for a poll that timed out, one for every other. *)
Theorem streamLoop_frames_in_poll_order
    (json_Unmarshal : string -> KafkaMessage * option error)
    (c : KafkaClient) (h : kafka.Consumer) (tks : list Tick) :
  Consumer c = Some h ->
  Forall (fun tk => fatal tk = false) tks ->
  trace (streamLoop json_Unmarshal c (TimerFired <$> tks)) =
    concat (tickActions json_Unmarshal <$> tks)
  /\ sentFrames (trace (streamLoop json_Unmarshal c (TimerFired <$> tks))) =
       omap (tickFrame json_Unmarshal) tks
  /\ outcome (streamLoop json_Unmarshal c (TimerFired <$> tks)) = Done Waiting.
Proof.
  intros Hc Hnf.
  pose proof (streamLoop_ticks json_Unmarshal c h tks Hc Hnf []) as Heq.
  rewrite app_nil_r in Heq. cbn [streamLoop ret trace outcome fst snd] in Heq.
  rewrite app_nil_r in Heq. rewrite Heq. cbn [trace outcome fst snd].
  split; [reflexivity|]. split; [apply sentFrames_ticks | reflexivity].
Qed.

(** X2: once the context is done the loop returns nil and does nothing of
    what comes after: no wake-up past the cancellation is polled. A stream
    whose polls up to the cancellation are not fatal ends with [Done
    ReturnedNil], having made only the calls of those wake-ups; cancelled at
    once, it has created and assigned the consumer and sent no frame. *)
Theorem RunStream_cancelled
    (json_Unmarshal : string -> KafkaMessage * option error) :
  (forall (c : KafkaClient) (pre post : list Wake),
      streamLoop json_Unmarshal c (pre ++ CtxDone :: post) =
      streamLoop json_Unmarshal c (pre ++ [CtxDone]))
  /\ (forall (ds : KafkaDatasource) (req : RunStreamRequest)
             (tks : list Tick) (post : list Wake),
        Forall (fun tk => fatal tk = false) tks ->
        RunStream json_Unmarshal
          {| newConsumerErr := None; assignErr := None;
             wakes := (TimerFired <$> tks) ++ CtxDone :: post |} ds req =
        (ActNewConsumer (consumerConfig (client ds))
           :: ActAssign [{| kafka.Topic := EmptyString; kafka.Partition := 0;
                            kafka.Offset := -1 |}]
           :: concat (tickActions json_Unmarshal <$> tks),
         Done ReturnedNil)).
Proof.
  split.
  - intros c pre post. induction pre as [|[|tk] pre IH]; try reflexivity.
    cbn [app]. rewrite !streamLoop_cons, IH. reflexivity.
  - intros ds req tks post Hnf. rewrite RunStream_unfold.
    cbn [newConsumerErr assignErr wakes].
    rewrite (streamLoop_ticks json_Unmarshal (initialized (client ds))
               {| kafka.config := consumerConfig (client ds) |} tks eq_refl Hnf).
    cbn [streamLoop ret trace outcome fst snd]. rewrite app_nil_r. reflexivity.
Qed.

(** X3: what the sender answers never matters: the loop makes the same calls
    and ends the same way when every [SendFrame] succeeds as when some, or
    all, of them fail. *)
Theorem streamLoop_ignores_send_errors
    (json_Unmarshal : string -> KafkaMessage * option error)
    (c : KafkaClient) (ws : list Wake) :
  streamLoop json_Unmarshal c ws =
  streamLoop json_Unmarshal c (withoutSendErr <$> ws).
Proof.
  induction ws as [|[|tk] ws IH]; try reflexivity.
  rewrite fmap_cons. cbn [withoutSendErr]. rewrite !streamLoop_cons, <- IH.
  unfold afterTick. cbn [polled now order sendErr].
  destruct (sendErr tk); reflexivity.
Qed.

(** X4: a stream panics only with an error of the Kafka library: the error
    of [kafka.NewConsumer], the error of [Assign], or the error event of code
    [ErrAllBrokersDown] that some poll answered. It never panics on a nil
    consumer, an index out of range or a value of the wrong type. *)
Theorem RunStream_panics_only_on_broker_errors
    (json_Unmarshal : string -> KafkaMessage * option error)
    (w : StreamWorld) (ds : KafkaDatasource) (req : RunStreamRequest)
    (p : PanicValue) :
  outcome (RunStream json_Unmarshal w ds req) = Panic p ->
  (exists err, newConsumerErr w = Some err /\ p = PanicError err)
  \/ (exists err, newConsumerErr w = None /\ assignErr w = Some err
                  /\ p = PanicError err)
  \/ (exists (tk : Tick) (e : kafka.Error),
        In (TimerFired tk) (wakes w)
        /\ polled tk = Some (kafka.EvError e)
        /\ kafka.Code e = kafka.ErrAllBrokersDown
        /\ p = PanicError (KafkaError e)).
Proof.
  rewrite RunStream_unfold.
  destruct (newConsumerErr w) as [err|].
  - intros Hp. injection Hp as <-. left. eauto.
  - destruct (assignErr w) as [err|].
    + intros Hp. injection Hp as <-. right. left. eauto.
    + cbn [outcome snd]. intros Hp. right. right.
      eapply streamLoop_panic; [|exact Hp]. reflexivity.
Qed.

(** X5: a stream returns only when its context is done: if it returned nil,
    the cancellation is among the wake-ups it saw; if it is still waiting in
    its [select], it is not. *)
Theorem RunStream_returns_only_when_cancelled
    (json_Unmarshal : string -> KafkaMessage * option error)
    (w : StreamWorld) (ds : KafkaDatasource) (req : RunStreamRequest) :
  (outcome (RunStream json_Unmarshal w ds req) = Done ReturnedNil ->
   In CtxDone (wakes w))
  /\ (outcome (RunStream json_Unmarshal w ds req) = Done Waiting ->
      ~ In CtxDone (wakes w)).
Proof.
  rewrite RunStream_unfold.
  destruct (newConsumerErr w) as [err|]; [split; discriminate|].
  destruct (assignErr w) as [err|]; [split; discriminate|].
  cbn [outcome snd]. apply streamLoop_stop.
Qed.

(** X6: after creating its consumer and assigning it, a stream calls nothing
    but [Poll], always with a timeout of 100 ms, and [SendFrame]: it creates
    no second consumer, assigns no second time and probes no metadata. *)
Theorem RunStream_only_polls_and_sends
    (json_Unmarshal : string -> KafkaMessage * option error)
    (w : StreamWorld) (ds : KafkaDatasource) (req : RunStreamRequest) :
  Forall loopAction (drop 2 (trace (RunStream json_Unmarshal w ds req))).
Proof.
  rewrite RunStream_unfold.
  destruct (newConsumerErr w) as [err|]; [apply Forall_nil_2|].
  destruct (assignErr w) as [err|]; [apply Forall_nil_2|].
  cbn [trace fst drop]. apply streamLoop_actions.
Qed.

(** ** Queries, one and many *)

Section QueryFacts.

Variable json_Unmarshal : string -> queryModel * option error.

Lemma respond_all_dom (pCtx : PluginContext) (qs : list DataQuery) :
  forall m : gmap string DataResponse,
    dom (fold_left (respond json_Unmarshal pCtx) qs m) =
    list_to_set (RefID <$> qs) ∪ dom m.
Proof.
  induction qs as [|q qs IH]; intros m.
  - simpl. rewrite (left_id_L ∅ (∪)). reflexivity.
  - rewrite fmap_cons, list_to_set_cons. cbn [fold_left]. rewrite IH.
    unfold respond. rewrite dom_insert_L, (assoc_L (∪)).
    rewrite (comm_L (∪) (list_to_set (RefID <$> qs))). reflexivity.
Qed.

Lemma respond_all_union (pCtx : PluginContext) (qs : list DataQuery) :
  forall m : gmap string DataResponse,
    fold_left (respond json_Unmarshal pCtx) qs m =
    fold_left (respond json_Unmarshal pCtx) qs ∅ ∪ m.
Proof.
  induction qs as [|q qs IH]; intros m.
  - simpl. rewrite (left_id_L ∅ (∪)). reflexivity.
  - simpl. rewrite (IH (respond json_Unmarshal pCtx m q)).
    rewrite (IH (respond json_Unmarshal pCtx ∅ q)).
    unfold respond. rewrite <- (assoc_L (∪)).
    rewrite <- insert_union_l, (left_id_L ∅ (∪)). reflexivity.
Qed.

Lemma QueryData_fold (pCtx : PluginContext) (qs : list DataQuery) :
  Responses (QueryData json_Unmarshal {| QPluginContext := pCtx; Queries := qs |}) =
  fold_left (respond json_Unmarshal pCtx) qs ∅.
Proof. reflexivity. Qed.

(** X7: a response carries either the decoding error and no frame, or no
    error and exactly one frame, named [response]; its error is the one the
    decoder returned. *)
Theorem Query_error_or_one_frame (pCtx : PluginContext) (query : DataQuery) :
  Error (Query json_Unmarshal pCtx query) = (json_Unmarshal (JSON query)).2
  /\ ((Error (Query json_Unmarshal pCtx query) = None
       /\ exists frame, Frames (Query json_Unmarshal pCtx query) = [frame]
                        /\ data.FrameName frame = "response")
      \/ (Error (Query json_Unmarshal pCtx query) <> None
          /\ Frames (Query json_Unmarshal pCtx query) = [])).
Proof.
  unfold Query. destruct (json_Unmarshal (JSON query)) as [qm [e|]]; simpl.
  - split; [reflexivity|]. right. split; [discriminate | reflexivity].
  - split; [reflexivity|]. left. split; [reflexivity|].
    destruct (WithStreaming qm); eexists; split; reflexivity.
Qed.

(** X8: the response to a query is a placeholder: two queries over the same
    time range that both decode, with the same [withStreaming], get the same
    response, whatever topic and partition each one names. *)
Theorem Query_ignores_topic_and_partition (pCtx : PluginContext)
    (q q' : DataQuery) (qm qm' : queryModel) :
  json_Unmarshal (JSON q) = (qm, None) ->
  json_Unmarshal (JSON q') = (qm', None) ->
  QTimeRange q = QTimeRange q' ->
  WithStreaming qm = WithStreaming qm' ->
  Query json_Unmarshal pCtx q = Query json_Unmarshal pCtx q'.
Proof.
  intros Hq Hq' Hrange Hws. unfold Query. rewrite Hq, Hq', Hrange, Hws.
  reflexivity.
Qed.

(** X9: the response map of a request has an entry for each [RefID] that
    occurs among its queries and for no other: looking up any other
    identifier finds nothing, and an empty request gives an empty map. *)
Theorem QueryData_dom (req : QueryDataRequest) :
  dom (Responses (QueryData json_Unmarshal req)) =
    list_to_set (RefID <$> Queries req)
  /\ (forall r : string,
        r ∉ RefID <$> Queries req ->
        Responses (QueryData json_Unmarshal req) !! r = None)
  /\ (Queries req = [] -> Responses (QueryData json_Unmarshal req) = ∅).
Proof.
  destruct req as [pCtx qs]. rewrite QueryData_fold. cbn [Queries].
  split; [|split].
  - rewrite respond_all_dom, dom_empty_L, (right_id_L ∅ (∪)). reflexivity.
  - intros r Hr. rewrite respond_all_other by exact Hr. apply lookup_empty.
  - intros ->. reflexivity.
Qed.

(** X10: under a [RefID] the response map holds the response of the last
    query of the request that carries it; so when the identifiers of a
    request are all different, every query finds its own response, and the
    map has as many entries as the request has queries. *)
Theorem QueryData_last_query_wins (pCtx : PluginContext) :
  (forall (qs1 qs2 : list DataQuery) (q : DataQuery),
      RefID q ∉ RefID <$> qs2 ->
      Responses (QueryData json_Unmarshal
                   {| QPluginContext := pCtx; Queries := qs1 ++ q :: qs2 |})
        !! RefID q
      = Some (Query json_Unmarshal pCtx q))
  /\ (forall qs : list DataQuery,
        NoDup (RefID <$> qs) ->
        (forall q, q ∈ qs ->
           Responses (QueryData json_Unmarshal
                        {| QPluginContext := pCtx; Queries := qs |})
             !! RefID q
           = Some (Query json_Unmarshal pCtx q))
        /\ size (Responses (QueryData json_Unmarshal
                              {| QPluginContext := pCtx; Queries := qs |}))
           = length qs).
Proof.
  assert (Hlast : forall (qs1 qs2 : list DataQuery) (q : DataQuery),
    RefID q ∉ RefID <$> qs2 ->
    Responses (QueryData json_Unmarshal
                 {| QPluginContext := pCtx; Queries := qs1 ++ q :: qs2 |})
      !! RefID q
    = Some (Query json_Unmarshal pCtx q)).
  { intros qs1 qs2 q Hnot. rewrite QueryData_fold, fold_left_app.
    cbn [fold_left]. rewrite respond_all_other by exact Hnot.
    unfold respond. apply lookup_insert_eq. }
  split; [exact Hlast|].
  intros qs Hnd. split.
  - intros q Hin. apply list_elem_of_split in Hin as (qs1 & qs2 & ->).
    apply Hlast. rewrite fmap_app, fmap_cons in Hnd.
    apply NoDup_app in Hnd as (_ & _ & Hnd).
    apply NoDup_cons in Hnd as [Hnot _]. exact Hnot.
  - rewrite <- size_dom.
    pose proof (QueryData_fold pCtx qs) as Hf. rewrite Hf, respond_all_dom.
    rewrite dom_empty_L, (right_id_L ∅ (∪)).
    rewrite size_list_to_set by exact Hnd. apply length_fmap.
Qed.

(** X11: a request answers like its two halves put together: the responses
    of the queries that come later, and next to them those of the earlier
    queries whose [RefID] no later query carries. *)
Theorem QueryData_app (pCtx : PluginContext) (qs1 qs2 : list DataQuery) :
  Responses (QueryData json_Unmarshal
               {| QPluginContext := pCtx; Queries := qs1 ++ qs2 |}) =
  Responses (QueryData json_Unmarshal
               {| QPluginContext := pCtx; Queries := qs2 |})
  ∪ Responses (QueryData json_Unmarshal
                 {| QPluginContext := pCtx; Queries := qs1 |}).
Proof.
  rewrite !QueryData_fold, fold_left_app. apply respond_all_union.
Qed.

(** X12: the channel a query with [withStreaming] advertises is one a client
    can subscribe to: it is the channel of scope [ds], of the data source's
    UID as namespace, and of a path that [SubscribeStream] grants. *)
Theorem Query_channel_is_granted (pCtx : PluginContext) (query : DataQuery)
    (qm : queryModel) :
  json_Unmarshal (JSON query) = (qm, None) ->
  WithStreaming qm = true ->
  exists (frame : data.Frame) (ch : live.Channel),
    Frames (Query json_Unmarshal pCtx query) = [frame]
    /\ data.Meta frame = Some {| data.Channel := live.String ch |}
    /\ live.Scope ch = live.ScopeDatasource
    /\ live.Namespace ch = UID (DSInstanceSettings pCtx)
    /\ forall (ctx : PluginContext) (payload : string),
         SStatus (SubscribeStream
                    {| SPluginContext := ctx; SPath := live.Path ch;
                       SData := payload |})
         = SubscribeStreamStatusOK.
Proof.
  intros Hdec Hws. unfold Query. rewrite Hdec, Hws.
  eexists. eexists {| live.Scope := _; live.Namespace := _; live.Path := _ |}.
  split; [reflexivity|]. split; [reflexivity|].
  split; [reflexivity|]. split; [reflexivity|].
  intros ctx payload. reflexivity.
Qed.

End QueryFacts.

(** ** Instances and their settings *)

Section InstanceFacts.

Variable json_Unmarshal : string -> Options * option error.

(** X13: when the settings decode, the API key of the result is the secure
    value stored under [apiKey] if there is one, whatever the JSON gave, and
    the decoded one if that key is missing; the two broker settings are the
    decoded ones either way. *)
Theorem getDatasourceSettings_apiKey (s : InstanceSettings) (o : Options) :
  json_Unmarshal (JSONData s) = (o, None) ->
  (forall apiKey : string,
      DecryptedSecureJSONData s !! "apiKey" = Some apiKey ->
      getDatasourceSettings json_Unmarshal s =
      (Some {| OptBootstrapServers := OptBootstrapServers o;
               OptAutoOffsetReset := OptAutoOffsetReset o;
               APIKey := apiKey |}, None))
  /\ (DecryptedSecureJSONData s !! "apiKey" = None ->
      getDatasourceSettings json_Unmarshal s = (Some o, None)).
Proof.
  intros Hdec. unfold getDatasourceSettings. rewrite Hdec. split.
  - intros apiKey ->. reflexivity.
  - intros ->. reflexivity.
Qed.

(** X14: creating an instance never panics; it fails exactly with the error
    of decoding the settings, and otherwise gives a data source whose client
    holds the two decoded broker settings and no consumer yet. The secure
    values, the API key among them, have no influence on the result. *)
Theorem NewKafkaInstance_ignores_secrets (s s' : InstanceSettings) :
  JSONData s = JSONData s' ->
  NewKafkaInstance json_Unmarshal s = NewKafkaInstance json_Unmarshal s'
  /\ NewKafkaInstance json_Unmarshal s =
     match (json_Unmarshal (JSONData s)).2 with
     | Some err => Done (None, Some err)
     | None =>
         Done (Some {| client :=
                         {| Consumer := None;
                            BootstrapServers :=
                              OptBootstrapServers (json_Unmarshal (JSONData s)).1;
                            AutoOffsetReset :=
                              OptAutoOffsetReset (json_Unmarshal (JSONData s)).1 |} |},
               None)
     end.
Proof.
  intros Hjson.
  assert (Hnew : forall t : InstanceSettings,
    NewKafkaInstance json_Unmarshal t =
    match (json_Unmarshal (JSONData t)).2 with
    | Some err => Done (None, Some err)
    | None =>
        Done (Some {| client :=
                        {| Consumer := None;
                           BootstrapServers :=
                             OptBootstrapServers (json_Unmarshal (JSONData t)).1;
                           AutoOffsetReset :=
                             OptAutoOffsetReset (json_Unmarshal (JSONData t)).1 |} |},
              None)
    end).
  { intros t. unfold NewKafkaInstance, getDatasourceSettings.
    destruct (json_Unmarshal (JSONData t)) as [o [e|]]; [reflexivity|].
    destruct (DecryptedSecureJSONData t !! "apiKey"); reflexivity. }
  split; [|apply Hnew]. rewrite !Hnew, Hjson. reflexivity.
Qed.

(** X15: the consumer that a stream, and a health check, of an instance
    creates is configured with the bootstrap servers and the offset reset
    policy of the instance's settings, the group
    [grafana-kafka-datasource], and auto commit switched off. *)
Theorem instance_consumer_config
    (json_Unmarshal_KafkaMessage : string -> KafkaMessage * option error)
    (s : InstanceSettings) (o : Options) :
  json_Unmarshal (JSONData s) = (o, None) ->
  exists d : KafkaDatasource,
    NewKafkaInstance json_Unmarshal s = Done (Some d, None)
    /\ (forall (w : StreamWorld) (req : RunStreamRequest),
          head (trace (RunStream json_Unmarshal_KafkaMessage w d req)) =
          Some (ActNewConsumer
                  {| kafka.bootstrap_servers := OptBootstrapServers o;
                     kafka.group_id := "grafana-kafka-datasource";
                     kafka.enable_auto_commit := "false";
                     kafka.auto_offset_reset := OptAutoOffsetReset o |}))
    /\ (forall (newErr metadataErr : option error) (req : CheckHealthRequest),
          head (trace (CheckHealth newErr metadataErr d req)) =
          Some (ActNewConsumer
                  {| kafka.bootstrap_servers := OptBootstrapServers o;
                     kafka.group_id := "grafana-kafka-datasource";
                     kafka.enable_auto_commit := "false";
                     kafka.auto_offset_reset := OptAutoOffsetReset o |})).
Proof.
  intros Hdec.
  exists {| client := {| Consumer := None;
                         BootstrapServers := OptBootstrapServers o;
                         AutoOffsetReset := OptAutoOffsetReset o |} |}.
  split; [|split].
  - unfold NewKafkaInstance, getDatasourceSettings. rewrite Hdec.
    destruct (DecryptedSecureJSONData s !! "apiKey"); reflexivity.
  - intros w req. rewrite RunStream_trace. reflexivity.
  - intros newErr metadataErr req.
    unfold CheckHealth, HealthCheck, ConsumerInitialize.
    destruct newErr as [e|]; [reflexivity|].
    destruct metadataErr as [[e|msg]|]; [|reflexivity|reflexivity].
    simpl. destruct (kafka.Code e =? kafka.ErrTransport); reflexivity.
Qed.

End InstanceFacts.

(** ** Health check, in full *)

(** X16: a health check creates a consumer and, if that succeeds, probes the
    metadata of all of the empty topic once, with a timeout of 200 ms; it
    neither assigns nor polls. It panics exactly when the consumer cannot be
    created or the probe fails with an error that is not a [kafka.Error]. *)
Theorem CheckHealth_calls_and_panics (newErr metadataErr : option error)
    (d : KafkaDatasource) (req : CheckHealthRequest) :
  trace (CheckHealth newErr metadataErr d req) =
    ActNewConsumer (consumerConfig (client d)) ::
    match newErr with
    | Some _ => []
    | None => [ActGetMetadata EmptyString false 200]
    end
  /\ ((exists p, outcome (CheckHealth newErr metadataErr d req) = Panic p)
      <-> (newErr <> None
           \/ exists msg, metadataErr = Some (OtherError msg))).
Proof.
  unfold CheckHealth, HealthCheck, ConsumerInitialize.
  destruct newErr as [e0|].
  - split; [reflexivity|]. simpl. split; [intros _; left; discriminate|].
    intros _. eauto.
  - destruct metadataErr as [[e|msg]|].
    + simpl. destruct (kafka.Code e =? kafka.ErrTransport); simpl;
        (split; [reflexivity|]); split.
      * intros [p Hp]. discriminate.
      * intros [Hn|[msg Hm]]; [destruct Hn; reflexivity | discriminate].
      * intros [p Hp]. discriminate.
      * intros [Hn|[msg Hm]]; [destruct Hn; reflexivity | discriminate].
    + simpl. split; [reflexivity|]. split; [intros _; right; eauto|].
      intros _. eauto.
    + simpl. split; [reflexivity|]. split.
      * intros [p Hp]. discriminate.
      * intros [Hn|[msg Hm]]; [destruct Hn; reflexivity | discriminate].
Qed.

(** ** Polls that return no message *)

(** X17: a poll that times out makes the loop send nothing and wait for the
    next wake-up; a poll that returns an event that is neither a message nor
    an error makes it send a frame that holds the time alone, as if an empty
    message had arrived. *)
Theorem streamLoop_poll_without_message
    (json_Unmarshal : string -> KafkaMessage * option error)
    (c : KafkaClient) (h : kafka.Consumer) (tnow : Time) (ord : MapOrder)
    (serr : option error) (ws : list Wake) :
  Consumer c = Some h ->
  streamLoop json_Unmarshal c
    (TimerFired {| polled := None; now := tnow; order := ord; sendErr := serr |}
       :: ws) =
  (ActPoll 100 :: trace (streamLoop json_Unmarshal c ws),
   outcome (streamLoop json_Unmarshal c ws))
  /\ forall tag : string,
       streamLoop json_Unmarshal c
         (TimerFired {| polled := Some (kafka.EvOther tag); now := tnow;
                        order := ord; sendErr := serr |} :: ws) =
       (ActPoll 100
          :: ActSendFrame
               {| data.FrameName := "response";
                  data.Fields := [data.NewField "time" (data.VecTime [tnow])];
                  data.Meta := None |}
          :: trace (streamLoop json_Unmarshal c ws),
        outcome (streamLoop json_Unmarshal c ws)).
Proof.
  intros Hc. split.
  - rewrite streamLoop_cons.
    erewrite afterTick_nonfatal by (exact Hc || reflexivity).
    reflexivity.
  - intros tag. rewrite streamLoop_cons.
    erewrite afterTick_nonfatal by (exact Hc || reflexivity).
    unfold tickActions, tickFrame, pulledData. cbn [polled now order app].
    rewrite map_to_list_empty.
    pose proof (visit_perm ord []) as Hp.
    apply Permutation_nil_r in Hp. rewrite Hp. reflexivity.
Qed.

(** * The further theorems at sample inputs *)

Module MoreChecks.

Import Samples MoreSamples.

Lemma streamLoop_frames_in_poll_order_witness :
  sentFrames (trace (streamLoop json_KafkaMessage ready (TimerFired <$> three_ticks))) =
  [ {| data.FrameName := "response";
       data.Fields :=
         [data.NewField "time" (data.VecTime [1000]);
          data.NewField "a" (data.VecFloat64 [1%float]);
          data.NewField "b" (data.VecFloat64 [2.5%float])];
       data.Meta := None |};
    timeOnly 3000 ].
Proof.
  refine (proj1 (proj2 (streamLoop_frames_in_poll_order json_KafkaMessage ready
                          {| kafka.config := consumerConfig (client ds) |}
                          three_ticks eq_refl _))).
  repeat constructor.
Defined.

Lemma RunStream_cancelled_witness :
  RunStream json_KafkaMessage
    (world ((TimerFired <$> three_ticks)
              ++ CtxDone :: [TimerFired (tick None 4000)]))
    ds req_metrics =
  (ActNewConsumer (consumerConfig (client ds))
     :: ActAssign [{| kafka.Topic := EmptyString; kafka.Partition := 0;
                      kafka.Offset := -1 |}]
     :: concat (tickActions json_KafkaMessage <$> three_ticks),
   Done ReturnedNil).
Proof.
  refine (proj2 (RunStream_cancelled json_KafkaMessage) ds req_metrics
            three_ticks [TimerFired (tick None 4000)] _).
  repeat constructor.
Defined.

Lemma RunStream_panics_only_on_broker_errors_witness :
  (exists err, newConsumerErr (world [TimerFired (tick (Some (error_event kafka.ErrAllBrokersDown)) 1000)]) = Some err
               /\ PanicError (KafkaError {| kafka.Code := kafka.ErrAllBrokersDown;
                                            kafka.Str := "broker transport failure" |})
                  = PanicError err)
  \/ (exists err,
        newConsumerErr (world [TimerFired (tick (Some (error_event kafka.ErrAllBrokersDown)) 1000)]) = None
        /\ assignErr (world [TimerFired (tick (Some (error_event kafka.ErrAllBrokersDown)) 1000)]) = Some err
        /\ PanicError (KafkaError {| kafka.Code := kafka.ErrAllBrokersDown;
                                     kafka.Str := "broker transport failure" |})
           = PanicError err)
  \/ (exists (tk : Tick) (e : kafka.Error),
        In (TimerFired tk)
           (wakes (world [TimerFired (tick (Some (error_event kafka.ErrAllBrokersDown)) 1000)]))
        /\ polled tk = Some (kafka.EvError e)
        /\ kafka.Code e = kafka.ErrAllBrokersDown
        /\ PanicError (KafkaError {| kafka.Code := kafka.ErrAllBrokersDown;
                                     kafka.Str := "broker transport failure" |})
           = PanicError (KafkaError e)).
Proof.
  exact (RunStream_panics_only_on_broker_errors json_KafkaMessage
           (world [TimerFired (tick (Some (error_event kafka.ErrAllBrokersDown)) 1000)])
           ds req_metrics _ eq_refl).
Defined.

Lemma RunStream_returns_only_when_cancelled_witness :
  In CtxDone (wakes (world [TimerFired (tick None 1000); CtxDone])).
Proof.
  exact (proj1 (RunStream_returns_only_when_cancelled json_KafkaMessage
                  (world [TimerFired (tick None 1000); CtxDone]) ds req_metrics)
           eq_refl).
Defined.

Lemma Query_ignores_topic_and_partition_witness :
  Query json_queryModel_logs pCtx (query "A" query_metrics) =
  Query json_queryModel_logs pCtx (query "B" query_logs).
Proof.
  exact (Query_ignores_topic_and_partition json_queryModel_logs pCtx
           (query "A" query_metrics) (query "B" query_logs)
           {| Topic := "metrics"; Partition := 3; WithStreaming := true |}
           {| Topic := "logs"; Partition := 7; WithStreaming := true |}
           eq_refl eq_refl eq_refl eq_refl).
Defined.

Lemma QueryData_dom_witness :
  Responses (QueryData json_queryModel
               {| QPluginContext := pCtx;
                  Queries := [query "A" query_metrics; query "B" payload_bad] |})
    !! "C" = None.
Proof.
  apply (proj1 (proj2 (QueryData_dom json_queryModel
                         {| QPluginContext := pCtx;
                            Queries := [query "A" query_metrics;
                                        query "B" payload_bad] |}))).
  cbn [Queries fmap list_fmap RefID query].
  intros Hin. apply elem_of_cons in Hin as [Hin|Hin]; [discriminate|].
  apply list_elem_of_singleton in Hin. discriminate.
Defined.

Lemma QueryData_last_query_wins_witness :
  Responses (QueryData json_queryModel
               {| QPluginContext := pCtx;
                  Queries := [query "A" payload_bad; query "A" query_metrics] |})
    !! "A"
  = Some (Query json_queryModel pCtx (query "A" query_metrics)).
Proof.
  apply (proj1 (QueryData_last_query_wins json_queryModel pCtx)
           [query "A" payload_bad] [] (query "A" query_metrics)).
  apply not_elem_of_nil.
Defined.

Lemma Query_channel_is_granted_witness :
  exists (frame : data.Frame) (ch : live.Channel),
    Frames (Query json_queryModel pCtx (query "A" query_metrics)) = [frame]
    /\ data.Meta frame = Some {| data.Channel := live.String ch |}
    /\ live.Scope ch = live.ScopeDatasource
    /\ live.Namespace ch = "kafka1"
    /\ forall (ctx : PluginContext) (payload : string),
         SStatus (SubscribeStream
                    {| SPluginContext := ctx; SPath := live.Path ch;
                       SData := payload |})
         = SubscribeStreamStatusOK.
Proof.
  exact (Query_channel_is_granted json_queryModel pCtx (query "A" query_metrics)
           {| Topic := "metrics"; Partition := 3; WithStreaming := true |}
           eq_refl eq_refl).
Defined.

Lemma getDatasourceSettings_apiKey_witness :
  getDatasourceSettings json_Options (instance_settings {["apiKey" := "secret"]}) =
  (Some {| OptBootstrapServers := "broker:9092";
           OptAutoOffsetReset := "earliest";
           APIKey := "secret" |}, None).
Proof.
  apply (proj1 (getDatasourceSettings_apiKey json_Options
                  (instance_settings {["apiKey" := "secret"]})
                  {| OptBootstrapServers := "broker:9092";
                     OptAutoOffsetReset := "earliest";
                     APIKey := EmptyString |}
                  eq_refl) "secret").
  reflexivity.
Defined.

Lemma NewKafkaInstance_ignores_secrets_witness :
  NewKafkaInstance json_Options (instance_settings {["apiKey" := "secret"]}) =
  NewKafkaInstance json_Options (instance_settings ∅).
Proof.
  exact (proj1 (NewKafkaInstance_ignores_secrets json_Options
                  (instance_settings {["apiKey" := "secret"]})
                  (instance_settings ∅) eq_refl)).
Defined.

Lemma instance_consumer_config_witness :
  exists d : KafkaDatasource,
    NewKafkaInstance json_Options (instance_settings ∅) = Done (Some d, None)
    /\ head (trace (RunStream json_KafkaMessage (world [CtxDone]) d req_metrics)) =
       Some (ActNewConsumer
               {| kafka.bootstrap_servers := "broker:9092";
                  kafka.group_id := "grafana-kafka-datasource";
                  kafka.enable_auto_commit := "false";
                  kafka.auto_offset_reset := "earliest" |}).
Proof.
  destruct (instance_consumer_config json_Options json_KafkaMessage
              (instance_settings ∅)
              {| OptBootstrapServers := "broker:9092";
                 OptAutoOffsetReset := "earliest";
                 APIKey := EmptyString |}
              eq_refl)
    as (d & Hnew & Hrun & _).
  exists d. split; [exact Hnew|]. apply Hrun.
Defined.

Lemma streamLoop_poll_without_message_witness :
  streamLoop json_KafkaMessage ready
    [TimerFired (tick None 1000);
     TimerFired (tick (Some (kafka.EvOther "PartitionEOF")) 2000)] =
  ([ActPoll 100; ActPoll 100; ActSendFrame (timeOnly 2000)], Done Waiting).
Proof.
  exact (proj1 (streamLoop_poll_without_message json_KafkaMessage ready
                  {| kafka.config := consumerConfig (client ds) |}
                  1000 asListed None
                  [TimerFired (tick (Some (kafka.EvOther "PartitionEOF")) 2000)]
                  eq_refl)).
Defined.

End MoreChecks.
